(** * dl-benchmark: the PyTorch inference engine and the TensorFlow
      parameter validator, embedded and verified.

    Sources embedded here:
      - src/inference/inference_pytorch.py
          set_thread_num, get_meaning_tokens_from_batch, inference_pytorch,
          infer_slice, inference_iteration, prepare_output
      - src/benchmark/frameworks/tensorflow/tensorflow_parameters_parser.py
          TensorFlowParameters.__init__, _input_shape_is_correct

    Conventions of the embedding.
      - Python integers are [Z]; the strings of the engine (task types,
        device names, option texts, messages) are [string]; the values
        the parameter validator receives from a configuration file are
        sequences of Unicode code points ([str]).
      - Code that raises returns a [result]; code with side effects is
        a function from a [state] (clock reads, slices drawn, the trace of
        effects so far) to an outcome paired with the final state, so that
        what happened before an exception stays observable.
      - Values owned by collaborators (the model, tensors, tokenizers) are
        kept as the expression that produced them ([pyval]); logging and the
        [torch.inference_mode] context manager have no effect on the
        results and are left out. *)

From Stdlib Require Import ZArith List String Ascii Bool Lia.
From Stdlib Require Import Numbers.DecimalString.
From Stdlib Require Import Sorting.Permutation.
Import ListNotations.

#[local] Open Scope string_scope.
#[local] Open Scope list_scope.
#[local] Open Scope Z_scope.

(** ** Exceptions and results *)

Inductive exn : Type :=
| ValueError (msg : string)
| TypeError (msg : string)
| AttributeError (msg : string)
| UnboundLocalError (msg : string)
| RuntimeError (msg : string)
| NameError (msg : string).

Inductive result (A : Type) : Type :=
| Ok (a : A)
| Raise (e : exn).

Arguments Ok {A} a.
Arguments Raise {A} e.

Definition is_ok {A : Type} (r : result A) : bool :=
  match r with Ok _ => true | Raise _ => false end.

Definition is_ValueError {A : Type} (r : result A) : bool :=
  match r with Raise (ValueError _) => true | _ => false end.

(** [str(num)] for a Python integer, as used by f-strings. *)
Definition str_of_int (num : Z) : string :=
  NilZero.string_of_int (Z.to_int num).

(** [x in [s1, ..., sn]] for strings. *)
Definition in_list (x : string) (l : list string) : bool :=
  existsb (String.eqb x) l.

(** ** Values handed around by the engine *)

#[local] Set Warnings "-register-all".

(** A value is either a Python literal or the expression over collaborator
    objects that produced it. *)
Inductive pyval : Type :=
| PNone
| PInt (n : Z)
| PStr (s : string)
| PObj (name : string)
| PList (items : list pyval)
| PTuple (items : list pyval)
| PSlice (k : nat)
| PAttr (o : pyval) (name : string)
| PItem (o : pyval) (key : pyval)
| PUnpacked (o : pyval)
| PPartial (f : pyval) (bound : list (string * pyval))
| PCall (f : pyval) (args : list pyval) (kwargs : list (string * pyval)).

(** Python truthiness.  Opaque objects are truthy (the default for an
    object that defines neither [__bool__] nor [__len__]). *)
Definition truthy (v : pyval) : bool :=
  match v with
  | PNone => false
  | PInt n => negb (n =? 0)
  | PStr s => negb (String.eqb s "")
  | PList items | PTuple items =>
      match items with [] => false | _ => true end
  | _ => true
  end.

(** A keyword dictionary: insertion ordered, assignment replaces in place. *)
Definition kwdict : Type := list (string * pyval).

Fixpoint dict_set (k : string) (v : pyval) (d : kwdict) : kwdict :=
  match d with
  | [] => [(k, v)]
  | (k', v') :: d' =>
      if String.eqb k k' then (k, v) :: d' else (k', v') :: dict_set k v d'
  end.

Fixpoint dict_get (k : string) (d : kwdict) : option pyval :=
  match d with
  | [] => None
  | (k', v') :: d' => if String.eqb k k' then Some v' else dict_get k d'
  end.

(** ** Two-dimensional integer tensors *)

(** A grid of shape [shape0 x shape1]; [item i j] is read only inside the
    shape. *)
Record tensor : Type := {
  shape0 : nat;
  shape1 : nat;
  item : nat -> nat -> Z
}.

(** The grid written as a list of rows. *)
Definition of_rows (rows : list (list Z)) : tensor :=
  {| shape0 := List.length rows;
     shape1 := List.length (hd [] rows);
     item := fun i j => nth j (nth i rows []) 0 |}.

Definition row (t : tensor) (i : nat) : list Z :=
  map (item t i) (seq 0 (shape1 t)).

(** Number of entries of a row different from the filler token. *)
Definition non_filler (dot_token : Z) (r : list Z) : nat :=
  List.length (filter (fun x => negb (x =? dot_token)) r).

(** ** get_meaning_tokens_from_batch (inference_pytorch.py, 376-391) *)

Definition get_meaning_tokens_from_batch
    (generated_output : tensor) (input_size : Z) (dot_token : Z) : list Z :=
  let num_tokens := [] in
  let lengths :=
    fold_left
      (fun lengths i =>
         let length :=
           fold_left
             (fun length j =>
                if negb (item generated_output i j =? dot_token)
                then length + 1
                else length)
             (seq 0 (shape1 generated_output))
             1 in
         lengths ++ [length - input_size])
      (seq 0 (shape0 generated_output))
      [] in
  num_tokens ++ lengths.

(** ** Effects *)

Inductive event : Type :=
| Time_read
| Get_slice
| Invoke (callee : pyval) (args : list pyval) (kwargs : kwdict)
| Cuda_synchronize
| Set_num_interop_threads (n : Z)
| Set_num_threads (n : Z).

Record state : Type := {
  time_reads : nat;
  slices_drawn : nat;
  trace : list event
}.

Definition initial : state :=
  {| time_reads := 0; slices_drawn := 0; trace := [] |}.

Definition M (A : Type) : Type := state -> result A * state.

Definition ret {A : Type} (a : A) : M A := fun s => (Ok a, s).

Definition raise {A : Type} (e : exn) : M A := fun s => (Raise e, s).

Definition bind {A B : Type} (m : M A) (k : A -> M B) : M B :=
  fun s =>
    match m s with
    | (Ok a, s') => k a s'
    | (Raise e, s') => (Raise e, s')
    end.

Declare Scope py_scope.
Delimit Scope py_scope with py.
Notation "x <- c ;; k" := (bind c (fun x => k))
  (at level 61, c at next level, right associativity) : py_scope.
Notation "c ;;; k" := (bind c (fun _ => k))
  (at level 61, right associativity) : py_scope.
#[local] Open Scope py_scope.

Definition emit (e : event) : M unit :=
  fun s => (Ok tt, {| time_reads := time_reads s;
                      slices_drawn := slices_drawn s;
                      trace := trace s ++ [e] |}).

Definition when (b : bool) (m : M unit) : M unit :=
  if b then m else ret tt.

(** [time()]: the clock is an oracle indexed by the number of earlier
    reads. *)
Definition time (clock : nat -> Z) : M Z :=
  fun s => (Ok (clock (time_reads s)),
            {| time_reads := S (time_reads s);
               slices_drawn := slices_drawn s;
               trace := trace s ++ [Time_read] |}).

(** [get_slice()]: the data-slicing collaborator hands out the next batch. *)
Definition get_slice : M pyval :=
  fun s => (Ok (PSlice (slices_drawn s)),
            {| time_reads := time_reads s;
               slices_drawn := S (slices_drawn s);
               trace := trace s ++ [Get_slice] |}).

(** A call that runs the model: [callee] applied to the positional
    arguments [args] and the keyword arguments [kwargs].  The callee is
    the model itself, its [translate_batch] entry point, or a generation
    entry point ([generate], [batch_text_generation]) that is handed the
    model, directly or through [functools.partial]. *)
Definition invoke (callee : pyval) (args : list pyval) (kwargs : kwdict)
  : M pyval :=
  emit (Invoke callee args kwargs) ;;; ret (PCall callee args kwargs).

Fixpoint for_each {A B : Type} (f : A -> M B) (l : list A) : M (list B) :=
  match l with
  | [] => ret []
  | x :: l' => y <- f x ;; ys <- for_each f l' ;; ret (y :: ys)
  end.

(** ** set_thread_num (inference_pytorch.py, 211-223) *)

Definition validate (num : Z) : M unit :=
  if num <? 0
  then raise (ValueError ("Incorrect thread count: " ++ str_of_int num)%string)
  else ret tt.

(** [if num:] on an argument that is [None] or an integer: the branch is
    taken, with the integer at hand, unless [num] is [None] or [0]. *)
Definition if_given (num : option Z) (body : Z -> M unit) : M unit :=
  match num with
  | None => ret tt
  | Some n => if n =? 0 then ret tt else body n
  end.

(** [torch.set_num_interop_threads] and [torch.set_num_threads] receive
    the count as a C int: a count outside its range makes the setter
    raise, and nothing is set. *)
Definition fits_c_int (n : Z) : bool :=
  (-2147483648 <=? n) && (n <=? 2147483647).

Definition torch_setter (setting : Z -> event) (n : Z) : M unit :=
  if fits_c_int n then emit (setting n)
  else raise (RuntimeError "Overflow when unpacking long").

Definition set_thread_num (num_inter_threads num_intra_threads : option Z)
  : M unit :=
  if_given num_inter_threads
    (fun n => validate n ;;; torch_setter Set_num_interop_threads n) ;;;
  if_given num_intra_threads
    (fun n => validate n ;;; torch_setter Set_num_threads n).

(** ** prepare_output (inference_pytorch.py, 577-598) *)

Definition output_names_message : string :=
  "The number of output tensors does not match the number of corresponding output names".

Definition bert_get_decode_result : pyval :=
  PObj "configs.pytorch_configs.bert_base_ner.get_decode_result".

(** The Python type name of a literal, [None] for a value owned by a
    collaborator. *)
Definition literal_type (v : pyval) : option string :=
  match v with
  | PNone => Some "NoneType"
  | PInt _ => Some "int"
  | PStr _ => Some "str"
  | PList _ => Some "list"
  | PTuple _ => Some "tuple"
  | _ => None
  end.

(** [o.name] for the attributes [images] and [detach], which no literal
    has: a literal raises, a collaborator's object gives its attribute. *)
Definition get_attribute (o : pyval) (name : string) : result pyval :=
  match literal_type o with
  | Some type_name =>
      Raise (AttributeError ("'" ++ type_name
                             ++ "' object has no attribute '" ++ name ++ "'")%string)
  | None => Ok (PAttr o name)
  end.

(** [a, b = o]: unpacking into two names. *)
Definition wrong_number_of_values (n : nat) : exn :=
  if (n <? 2)%nat
  then ValueError ("not enough values to unpack (expected 2, got "
                   ++ str_of_int (Z.of_nat n) ++ ")")%string
  else ValueError "too many values to unpack (expected 2)".

Definition unpack_pair (o : pyval) : result (pyval * pyval) :=
  match o with
  | PNone => Raise (TypeError "cannot unpack non-iterable NoneType object")
  | PInt _ => Raise (TypeError "cannot unpack non-iterable int object")
  | PList [a; b] | PTuple [a; b] => Ok (a, b)
  | PList items | PTuple items =>
      Raise (wrong_number_of_values (List.length items))
  | PStr (String a (String b EmptyString)) =>
      Ok (PStr (String a ""), PStr (String b ""))
  | PStr s => Raise (wrong_number_of_values (String.length s))
  | _ => Ok (PItem o (PInt 0), PItem o (PInt 1))
  end.

(** The first two cases are the guard of lines 578-579; in the third,
    [name0] is [output_names[0]]. *)
Definition prepare_output
    (result_ : pyval) (output_names : option (list string)) (task_type : string)
  : result pyval :=
  match output_names with
  | None => Raise (ValueError output_names_message)
  | Some [] => Raise (ValueError output_names_message)
  | Some (name0 :: _) =>
      if in_list task_type ["feedforward"] then
        Ok (PCall (PObj "dict") [] [])
      else if in_list task_type ["text-generation"; "batch-text-generation";
                                 "yolo_v7"; "text-translation";
                                 "speech-to-text"] then
        Ok result_
      else if in_list task_type ["named-entity-recognition"] then
        match unpack_pair result_ with
        | Ok (tokens, label_indices) =>
            let decoded_result :=
              PCall bert_get_decode_result [tokens; label_indices] [] in
            Ok decoded_result
        | Raise e => Raise e
        end
      else if in_list task_type ["text-to-image"] then
        get_attribute result_ "images"
      else if in_list task_type ["classification"] then
        match get_attribute result_ "detach" with
        | Ok detach =>
            Ok (PCall (PObj "dict") []
                  [(name0, PCall (PAttr (PCall detach [] []) "numpy") [] [])])
        | Raise e => Raise e
        end
      else
        Raise (ValueError ("Unsupported task " ++ task_type
                           ++ " to print inference results")%string)
  end.

(** ** Collaborators of the inference engine *)

Inductive device : Type := cpu | cuda.

(** [device.type] *)
Definition device_type (d : device) : string :=
  match d with cpu => "cpu" | cuda => "cuda" end.

Definition device_val (d : device) : pyval :=
  PCall (PObj "torch.device") [PStr (device_type d)] [].

Definition causal_lm (name : string) : pyval :=
  PObj ("configs.pytorch_configs.causal_lm_base." ++ name)%string.
Definition bert_ner (name : string) : pyval :=
  PObj ("configs.pytorch_configs.bert_base_ner." ++ name)%string.
Definition speech (name : string) : pyval :=
  PObj ("configs.pytorch_configs.speech_to_sequence_base." ++ name)%string.
Definition gpt_2 (name : string) : pyval :=
  PObj ("configs.onnx_configs.gpt_2." ++ name)%string.

(** A call of a helper that does not run the model (tokenizers, decoders,
    tensor constructors and tensor methods): only its value matters. *)
Definition call (f : pyval) (args : list pyval) : pyval := PCall f args [].

Definition torch_tensor (data : pyval) (d : device) : pyval :=
  PCall (PObj "torch.tensor") [data] [("device", device_val d)].

Definition softmax (x : pyval) (dim : Z) : pyval :=
  PCall (PObj "torch.nn.functional.softmax") [x] [("dim", PInt dim)].

(** [x.to(target)] *)
Definition to_ (x : pyval) (target : pyval) : pyval :=
  call (PAttr x "to") [target].

Definition len (x : pyval) : pyval := call (PObj "len") [x].

(** What the engine reads off collaborator values: the clock, the integer
    an integer-valued expression stands for, the grid a generated output
    stands for, and the constant [MAX_TEXT_LEN] of
    [configs.onnx_configs.gpt_2]. *)
Record env : Type := {
  clock : nat -> Z;
  as_int : pyval -> Z;
  as_tensor : pyval -> tensor;
  MAX_TEXT_LEN : Z
}.

(** Use of a local variable that may not have been assigned. *)
Definition bound (name : string) (v : option pyval) : M pyval :=
  match v with
  | Some x => ret x
  | None =>
      raise (UnboundLocalError
               ("local variable '" ++ name
                ++ "' referenced before assignment")%string)
  end.

(** The positional arguments a starred argument contributes to a call. *)
Definition unpack (v : pyval) : M (list pyval) :=
  match v with
  | PNone =>
      raise (TypeError "argument after * must be an iterable, not NoneType")
  | PInt _ =>
      raise (TypeError "argument after * must be an iterable, not int")
  | PList items | PTuple items => ret items
  | _ => ret [PUnpacked v]
  end.

(** The locals of [inference_pytorch] after its set-up part (396-430). *)
Record locals : Type := {
  tokenizer : pyval;
  processor : pyval;
  input_size : Z;
  encodings_dict : option pyval;
  num_tokens0 : list Z;
  audios_lengths0 : list pyval;
  audio_sampling_rate0 : pyval
}.

(** One iteration's report, the dictionary [inference_iteration] returns.
    [iter_tokens] is [None], an integer or a list of integers. *)
Inductive tokens : Type :=
| Tokens_none
| Tokens_int (n : Z)
| Tokens_list (l : list Z).

Record iteration : Type := {
  exec_time : Z;
  iter_tokens : tokens;
  audio_length : pyval;
  iter_audio_sampling_rate : pyval
}.

Record loop_results : Type := {
  loop_time_infer : list Z;
  loop_num_tokens : list Z;
  loop_audios_lengths : list pyval;
  loop_audio_sampling_rate : pyval
}.

(** The tuple [inference_pytorch] returns. *)
Record run : Type := {
  output : pyval;
  time_infer : list Z;
  num_tokens : list Z;
  audios_lengths : list pyval;
  audio_sampling_rate : pyval
}.

Notation "' pat <- c ;; k" := (bind c (fun pat => k))
  (at level 61, pat pattern, c at next level, right associativity) : py_scope.

Section Engine.

Variable E : env.

(** ** inference_pytorch, set-up part (inference_pytorch.py, 396-430) *)

Definition set_up (model : pyval) (task_type : string) : M locals :=
  if in_list task_type ["text-generation"; "batch-text-generation"] then
    let tokenizer := call (causal_lm "create_tokenizer")
                          [PAttr model "name_or_path"] in
    sl <- get_slice ;;
    let encodings_dict := call (causal_lm "tokenize") [tokenizer; sl] in
    let input_size :=
      if in_list task_type ["text-generation"] then
        as_int E (call (PAttr (PItem encodings_dict (PStr "input_ids")) "size")
                       [PInt 1])
      else 0 in
    let num_tokens :=
      if in_list task_type ["text-generation"] then []
      else if in_list task_type ["batch-text-generation"] then [MAX_TEXT_LEN E]
      else [] in
    ret {| tokenizer := tokenizer; processor := PNone;
           input_size := input_size; encodings_dict := Some encodings_dict;
           num_tokens0 := num_tokens; audios_lengths0 := [];
           audio_sampling_rate0 := PNone |}
  else if in_list task_type ["named-entity-recognition"] then
    let tokenizer := call (bert_ner "create_tokenizer") [] in
    ret {| tokenizer := tokenizer; processor := PNone;
           input_size := 0; encodings_dict := None;
           num_tokens0 := []; audios_lengths0 := [];
           audio_sampling_rate0 := PNone |}
  else if in_list task_type ["speech-to-text"] then
    let processor := call (speech "create_processor") [model] in
    sl <- get_slice ;;
    let waveform := PItem sl (PInt 0) in
    let sampling_rate := PItem sl (PInt 1) in
    let audio_length := PItem sl (PInt 2) in
    let encodings_dict :=
      call (speech "process_audio") [processor; waveform; sampling_rate] in
    let audio_sampling_rate :=
      PAttr (PAttr processor "feature_extractor") "sampling_rate" in
    ret {| tokenizer := PNone; processor := processor;
           input_size := 0; encodings_dict := Some encodings_dict;
           num_tokens0 := []; audios_lengths0 := [audio_length];
           audio_sampling_rate0 := audio_sampling_rate |}
  else
    ret {| tokenizer := PNone; processor := PNone;
           input_size := 0; encodings_dict := None;
           num_tokens0 := []; audios_lengths0 := [];
           audio_sampling_rate0 := PNone |}.

(** The list comprehension
    [[torch.tensor(get_slice()[input_name], device=device)
      for input_name in input_names]]: one slice is drawn per input name. *)
Definition input_tensors (input_names : list string) (d : device) : M pyval :=
  l <- for_each
         (fun input_name =>
            sl <- get_slice ;;
            ret (torch_tensor (PItem sl (PStr input_name)) d))
         input_names ;;
  ret (PList l).

(** ** inference_pytorch, single-shot branch (432-479) *)

Definition single_shot
    (model : pyval) (task_type : string) (input_names : list string)
    (d : device) (L : locals) : M run :=
  inputs <-
    (if in_list task_type ["classification"; "feedforward"; "yolo_v7"] then
       l <- input_tensors input_names d ;; ret (Some l)
     else ret None) ;;
  t0 <- time (clock E) ;;
  '(output, num_tokens) <-
    (if in_list task_type ["classification"; "feedforward"] then
       inputs <- bound "inputs" inputs ;;
       args <- unpack inputs ;;
       out <- invoke model args [] ;;
       ret (to_ (softmax out 1) (PStr "cpu"), num_tokens0 L)
     else if in_list task_type ["text-to-image"] then
       sl <- get_slice ;;
       out <- invoke model [] [("prompt", sl)] ;;
       ret (out, num_tokens0 L)
     else if in_list task_type ["yolo_v7"] then
       inputs <- bound "inputs" inputs ;;
       args <- unpack inputs ;;
       out <- invoke model args [] ;;
       ret (to_ (PItem out (PInt 0)) (PStr "cpu"), num_tokens0 L)
     else if in_list task_type ["text-translation"] then
       inputs <- get_slice ;;
       out <- invoke (PAttr model "translate_batch") [inputs] [] ;;
       ret (out, num_tokens0 L)
     else if in_list task_type ["named-entity-recognition"] then
       sl <- get_slice ;;
       let tokenized_sentence :=
         to_ (PItem (call (bert_ner "tokenize") [tokenizer L; sl])
                    (PStr "input_ids"))
             (device_val d) in
       model_output <- invoke model [tokenized_sentence] [] ;;
       let decoded := call (bert_ner "decode")
                           [tokenizer L; tokenized_sentence; model_output] in
       let tokens := PItem decoded (PInt 0) in
       let label_indices := PItem decoded (PInt 1) in
       ret (PTuple [tokens; label_indices],
            num_tokens0 L ++ [as_int E (len tokens)])
     else if in_list task_type ["text-generation"] then
       encodings_dict <- bound "encodings_dict" (encodings_dict L) ;;
       generated_output <-
         invoke (causal_lm "generate") []
                [("model", model); ("inputs", encodings_dict);
                 ("device", device_val d); ("tokenizer", tokenizer L)] ;;
       ret (call (causal_lm "decode") [tokenizer L; generated_output],
            num_tokens0 L
            ++ get_meaning_tokens_from_batch
                 (as_tensor E generated_output) (input_size L) 2)
     else if in_list task_type ["batch-text-generation"] then
       encodings_dict <- bound "encodings_dict" (encodings_dict L) ;;
       model_output <-
         invoke (gpt_2 "batch_text_generation") []
                [("torch_model", model); ("tokenizer", tokenizer L);
                 ("device", device_val d);
                 ("encodings_dict", encodings_dict)] ;;
       ret (call (gpt_2 "decode") [tokenizer L; model_output], num_tokens0 L)
     else if in_list task_type ["speech-to-text"] then
       encodings_dict <- bound "encodings_dict" (encodings_dict L) ;;
       generated_output <-
         invoke (speech "generate") []
                [("model", model); ("inputs", encodings_dict);
                 ("device", device_val d); ("processor", processor L)] ;;
       ret (call (speech "decode") [processor L; generated_output],
            num_tokens0 L
            ++ get_meaning_tokens_from_batch
                 (as_tensor E generated_output) (input_size L) 2)
     else ret (PNone, num_tokens0 L)) ;;
  t1 <- time (clock E) ;;
  ret {| output := output;
         time_infer := [] ++ [t1 - t0];
         num_tokens := num_tokens;
         audios_lengths := audios_lengths0 L;
         audio_sampling_rate := audio_sampling_rate0 L |}.

(** ** infer_slice (493-511) *)

(** Modelled from the spec: the decorator [get_exec_time] of
    [inference_tools.loop_tools] is imported by the engine and is not among
    the sources.  Spec 2, IterationTimer: "wraps a single inference call,
    measuring wall-clock latency"; the decorated function returns its
    result paired with the elapsed time. *)
Definition get_exec_time {A : Type} (f : M A) : M (A * Z) :=
  t0 <- time (clock E) ;;
  res <- f ;;
  t1 <- time (clock E) ;;
  ret (res, t1 - t0).

(** [if input_kwarg_name:] on [None] or a string. *)
Definition kwarg_given (input_kwarg_name : option string) : option string :=
  match input_kwarg_name with
  | Some name => if String.eqb name "" then None else Some name
  | None => None
  end.

Definition infer_slice_body
    (d : device) (inputs : pyval) (model : pyval)
    (input_kwarg_name : option string) (task_type : string)
    (tokenizer : pyval) : M pyval :=
  let infer_func :=
    if in_list task_type ["text-translation"]
    then PAttr model "translate_batch"
    else model in
  res <-
    match kwarg_given input_kwarg_name with
    | Some name =>
        let params := dict_set name inputs [] in
        let params :=
          if truthy tokenizer
             && negb (in_list task_type ["named-entity-recognition"])
          then dict_set "tokenizer" tokenizer params
          else params in
        invoke infer_func [] params
    | None =>
        args <- unpack inputs ;;
        invoke infer_func args []
    end ;;
  when (String.eqb (device_type d) "cuda") (emit Cuda_synchronize) ;;;
  ret res.

Definition infer_slice
    (d : device) (inputs : pyval) (model : pyval)
    (input_kwarg_name : option string) (task_type : string)
    (tokenizer : pyval) : M (pyval * Z) :=
  get_exec_time
    (infer_slice_body d inputs model input_kwarg_name task_type tokenizer).

(** ** inference_iteration (514-574) *)

Definition inference_iteration
    (d : device) (input_names : list string) (model : pyval)
    (task_type : string) (tokenizer processor : pyval) (input_size : Z)
  : M iteration :=
  inputs <-
    (if in_list task_type ["text-generation"; "batch-text-generation"] then
       sl <- get_slice ;; ret (call (causal_lm "tokenize") [tokenizer; sl])
     else ret PNone) ;;
  '(inputs, input_kwarg_name, model, audio_length, audio_sampling_rate) <-
    (if in_list task_type ["classification"; "feedforward"] then
       l <- input_tensors input_names d ;;
       ret (l, None, model, PNone, PNone)
     else if in_list task_type ["named-entity-recognition"] then
       sl <- get_slice ;;
       ret (to_ (PItem (call (bert_ner "tokenize") [tokenizer; sl])
                       (PStr "input_ids"))
                (device_val d),
            Some "input_ids", model, PNone, PNone)
     else if in_list task_type ["text-generation"] then
       ret (inputs, Some "inputs",
            PPartial (causal_lm "generate")
                     [("model", model); ("device", device_val d)],
            PNone, PNone)
     else if in_list task_type ["speech-to-text"] then
       sl <- get_slice ;;
       let waveform := PItem sl (PInt 0) in
       let sampling_rate := PItem sl (PInt 1) in
       let audio_length := PItem sl (PInt 2) in
       ret (call (speech "process_audio") [processor; waveform; sampling_rate],
            Some "inputs",
            PPartial (speech "generate")
                     [("model", model); ("device", device_val d);
                      ("processor", processor)],
            audio_length,
            PAttr (PAttr processor "feature_extractor") "sampling_rate")
     else if in_list task_type ["batch-text-generation"] then
       ret (inputs, Some "encodings_dict",
            PPartial (gpt_2 "batch_text_generation")
                     [("torch_model", model); ("tokenizer", tokenizer);
                      ("device", device_val d)],
            PNone, PNone)
     else if in_list task_type ["text-to-image"] then
       sl <- get_slice ;;
       ret (sl, Some "prompt", model, PNone, PNone)
     else if in_list task_type ["text-translation"] then
       sl <- get_slice ;;
       ret (sl, Some "txt", model, PNone, PNone)
     else ret (inputs, None, model, PNone, PNone)) ;;
  when (String.eqb (device_type d) "cuda") (emit Cuda_synchronize) ;;;
  '(res, exec_time) <-
    infer_slice d inputs model input_kwarg_name task_type tokenizer ;;
  let iter_tokens :=
    if in_list task_type ["text-generation"; "speech-to-text"]
    then Tokens_list
           (get_meaning_tokens_from_batch (as_tensor E res) input_size 2)
    else Tokens_none in
  let iter_tokens :=
    if in_list task_type ["named-entity-recognition"]
    then let tokens :=
           PItem (call (bert_ner "decode") [tokenizer; inputs; res]) (PInt 0) in
         Tokens_int (as_int E (len tokens))
    else iter_tokens in
  ret {| exec_time := exec_time;
         iter_tokens := iter_tokens;
         audio_length := audio_length;
         iter_audio_sampling_rate := audio_sampling_rate |}.

(** ** The measurement loop *)

(** Modelled from the spec: the decorator [loop_inference] of
    [inference_tools.loop_tools] is imported by the engine and is not among
    the sources.  Spec 4.3: each iteration appends a sample; "the loop
    terminates when either the configured iteration count is reached or a
    wall-clock deadline (run start time + configured duration) is exceeded,
    whichever comes first; if duration is zero/unset, only the iteration
    count bounds the loop"; an iteration count of 0 means "run until
    deadline"; "the loop must run at least one iteration regardless of an
    already-exceeded deadline"; the deadline is checked only between
    iterations; an exception raised by an iteration aborts the loop.
    Spec 3: token counts and audio lengths are flattened over the
    iterations, the audio sample rate is shared by the run.  [fuel] bounds
    the number of iterations the model follows; [None] is returned when it
    runs out before the loop stops. *)
Definition collect (acc : loop_results) (it : iteration) : loop_results :=
  {| loop_time_infer := loop_time_infer acc ++ [exec_time it];
     loop_num_tokens :=
       loop_num_tokens acc
       ++ match iter_tokens it with
          | Tokens_none => []
          | Tokens_int n => [n]
          | Tokens_list l => l
          end;
     loop_audios_lengths :=
       loop_audios_lengths acc
       ++ match audio_length it with
          | PNone => []
          | a => [a]
          end;
     loop_audio_sampling_rate := iter_audio_sampling_rate it |}.

Fixpoint loop_iterations
    (inference_func : M iteration) (num_iterations test_duration start : Z)
    (fuel : nat) (done : Z) (acc : loop_results) : M (option loop_results) :=
  match fuel with
  | O => ret None
  | S fuel' =>
      it <- inference_func ;;
      let acc := collect acc it in
      let done := done + 1 in
      if (0 <? num_iterations) && (num_iterations <=? done) then
        ret (Some acc)
      else
        now <- time (clock E) ;;
        if (0 <? test_duration) && (start + test_duration <=? now) then
          ret (Some acc)
        else
          loop_iterations inference_func num_iterations test_duration start
                          fuel' done acc
  end.

Definition loop_inference
    (num_iterations test_duration : Z) (inference_func : M iteration)
    (fuel : nat) : M (option loop_results) :=
  start <- time (clock E) ;;
  loop_iterations inference_func num_iterations test_duration start fuel 0
    {| loop_time_infer := []; loop_num_tokens := [];
       loop_audios_lengths := []; loop_audio_sampling_rate := PNone |}.

(** ** inference_pytorch (394-490) *)

Definition inference_pytorch
    (model : pyval) (num_iterations : Z) (task_type : string)
    (input_names : list string) (d : device) (test_duration : Z)
    (fuel : nat) : M (option run) :=
  L <- set_up model task_type ;;
  if num_iterations =? 1 then
    r <- single_shot model task_type input_names d L ;;
    ret (Some r)
  else
    loop_results <-
      loop_inference num_iterations test_duration
        (inference_iteration d input_names model task_type
           (tokenizer L) (processor L) (input_size L))
        fuel ;;
    match loop_results with
    | None => ret None
    | Some lr =>
        ret (Some {| output := PNone;
                     time_infer := loop_time_infer lr;
                     num_tokens := loop_num_tokens lr;
                     audios_lengths := loop_audios_lengths lr;
                     audio_sampling_rate := loop_audio_sampling_rate lr |})
    end.

End Engine.

(** A sample environment: the clock ticks once per read, every generated
    output is the grid of the token-counting example. *)
Definition sample_env : env :=
  {| clock := fun n => Z.of_nat n;
     as_int := fun _ => 3;
     as_tensor := fun _ => of_rows [[5; 7; 2; 2; 2]; [5; 7; 9; 2; 2]];
     MAX_TEXT_LEN := 1024 |}.

Definition the_model : pyval := PObj "model".

(** The stub of spec 8: every model call takes half a second.  The clock
    counts half seconds; an iteration reads it before and after its call
    and the loop reads it once between iterations, so the readings are
    0, 0, 1, 1, 1, 2, 2 and so on. *)
Definition half_second_env : env :=
  {| clock := fun n => Z.of_nat ((n + 1) / 3);
     as_int := fun _ => 0;
     as_tensor := fun _ => of_rows [];
     MAX_TEXT_LEN := 1024 |}.

(** ** TensorFlowParameters (tensorflow_parameters_parser.py, 60-126) *)

(** A Python [str]: a sequence of Unicode code points.  The constructor
    receives the text of the elements of an XML configuration, which may
    hold any of them. *)
Definition str : Type := list N.

(** The [str] of a literal written with ASCII characters. *)
Definition text (literal : string) : str :=
  map N_of_ascii (list_ascii_of_string literal).

(** The characters [str.split()] treats as whitespace: U+0009-U+000D,
    U+001C-U+0020, U+0085, U+00A0, U+1680, U+2000-U+200A, U+2028, U+2029,
    U+202F, U+205F and U+3000. *)
Definition is_space (c : N) : bool :=
  ((9 <=? c) && (c <=? 13) || (28 <=? c) && (c <=? 32)
   || (c =? 133) || (c =? 160) || (c =? 5760)
   || (8192 <=? c) && (c <=? 8202) || (c =? 8232) || (c =? 8233)
   || (c =? 8239) || (c =? 8287) || (c =? 12288))%N.

(** [str.split()] without arguments: the maximal runs of non-whitespace
    characters. *)
Fixpoint split_from (word : option str) (s : str) : list str :=
  match s with
  | [] =>
      match word with Some w => [w] | None => [] end
  | c :: s' =>
      if is_space c then
        match word with
        | Some w => w :: split_from None s'
        | None => split_from None s'
        end
      else
        split_from
          (Some (match word with Some w => w | None => [] end ++ [c]))
          s'
  end.

Definition split (s : str) : list str := split_from None s.

(** The validators that [TensorFlowParameters] inherits from its base class
    [FrameworkParameters] (config_parser/framework_parameters_parser.py).
    The base class is not among the sources, so its methods are an
    interface here; they receive whatever the constructor was given. *)
Class FrameworkParameters : Type := {
  _parameter_is_not_none : option str -> bool;
  _channel_swap_is_correct : option str -> bool;
  _mean_is_correct : option str -> bool;
  _float_value_is_correct : option str -> bool;
  _int_value_is_correct : option str -> bool
}.

Module TensorFlowParameters.

Record t : Type := {
  channel_swap : option str;
  mean : option str;
  input_scale : option str;
  input_shape : option str;
  input_name : option str;
  output_names : option str;
  nthreads : option str;
  num_inter_threads : option str;
  num_intra_threads : option str;
  kmp_affinity : option str;
  use_xla : option str
}.

Definition channel_swap_message : string :=
  "Channel swap can only take values: list of unique values 0, 1, 2.".
Definition mean_message : string :=
  "Mean can only take values: list of 3 float elements.".
Definition input_scale_message : string :=
  "Input scale can only take values: float greater than zero.".
Definition input_shape_message : string :=
  "Input shape can only take values: list of 3 integer elements greater than zero.".
Definition thread_count_message : string :=
  "Threads count can only take integer value".
Definition inter_op_message : string :=
  "Inter op parallelism threads can only take integer value".
Definition intra_op_message : string :=
  "Intra op parallelism threads can only take integer value".

Section Methods.

Context {base : FrameworkParameters}.

(** The [for] loop of [_input_shape_is_correct] (123-126). *)
Fixpoint every_token_is_int (shape_check : list str) : bool :=
  match shape_check with
  | [] => true
  | i :: rest =>
      if negb (_int_value_is_correct (Some i)) then false
      else every_token_is_int rest
  end.

(** [_input_shape_is_correct] (119-126) *)
Definition _input_shape_is_correct (input_shape : option str)
  : result bool :=
  match input_shape with
  | None =>
      Raise (AttributeError "'NoneType' object has no attribute 'split'")
  | Some s =>
      let shape_check := split s in
      if negb (List.length shape_check =? 3)%nat then Ok false
      else Ok (every_token_is_int shape_check)
  end.

(** One guarded assignment of the constructor:
    [if not-none(value): if correct(value): field = value else: raise]. *)
Definition validated
    (value : option str) (is_correct : option str -> result bool)
    (message : string) : result (option str) :=
  if _parameter_is_not_none value then
    match is_correct value with
    | Ok true => Ok value
    | Ok false => Raise (ValueError message)
    | Raise e => Raise e
    end
  else Ok None.

(** [if not-none(value): field = value] *)
Definition stored (value : option str) : option str :=
  if _parameter_is_not_none value then value else None.

Definition and_then {A B : Type} (r : result A) (k : A -> result B)
  : result B :=
  match r with
  | Ok a => k a
  | Raise e => Raise e
  end.

(** [__init__] (61-117) *)
Definition __init__
    (channel_swap mean input_scale input_shape input_name output_names
     thread_count inter_op_parallelism_threads intra_op_parallelism_threads
     kmp_affinity use_xla : option str) : result t :=
  and_then (validated channel_swap (fun v => Ok (_channel_swap_is_correct v))
              channel_swap_message) (fun self_channel_swap =>
  and_then (validated mean (fun v => Ok (_mean_is_correct v))
              mean_message) (fun self_mean =>
  and_then (validated input_scale (fun v => Ok (_float_value_is_correct v))
              input_scale_message) (fun self_input_scale =>
  and_then (validated input_shape _input_shape_is_correct
              input_shape_message) (fun self_input_shape =>
  let self_input_name := stored input_name in
  let self_output_names := stored output_names in
  and_then (validated thread_count (fun v => Ok (_int_value_is_correct v))
              thread_count_message) (fun self_nthreads =>
  and_then (validated inter_op_parallelism_threads
              (fun v => Ok (_int_value_is_correct v))
              inter_op_message) (fun self_num_inter_threads =>
  and_then (validated intra_op_parallelism_threads
              (fun v => Ok (_int_value_is_correct v))
              intra_op_message) (fun self_num_intra_threads =>
  Ok {| channel_swap := self_channel_swap;
        mean := self_mean;
        input_scale := self_input_scale;
        input_shape := self_input_shape;
        input_name := self_input_name;
        output_names := self_output_names;
        nthreads := self_nthreads;
        num_inter_threads := self_num_inter_threads;
        num_intra_threads := self_num_intra_threads;
        kmp_affinity := stored kmp_affinity;
        use_xla := stored use_xla |}))))))).

End Methods.

End TensorFlowParameters.

(** A sample implementation of the inherited validators, to run the
    constructor on concrete strings: a parameter is present when it is not
    [None], an integer is a string of the decimal digits [0] to [9], and
    the three validators the input shape does not use accept everything. *)
Definition all_digits (s : str) : bool :=
  forallb (fun c => (48 <=? c)%N && (c <=? 57)%N) s.

#[local] Instance sample_base : FrameworkParameters :=
  {| _parameter_is_not_none :=
       fun p => match p with Some _ => true | None => false end;
     _channel_swap_is_correct := fun _ => true;
     _mean_is_correct := fun _ => true;
     _float_value_is_correct := fun _ => true;
     _int_value_is_correct :=
       fun p => match p with Some s => all_digits s | None => false end |}.

(** ** Further functions of inference_pytorch.py *)

(** [s.split(sep)] for a one-character separator: the pieces between the
    occurrences of [sep]; the list is never empty. *)
Fixpoint split_on (sep : ascii) (s : string) : list string :=
  match s with
  | EmptyString => [""]
  | String c s' =>
      if Ascii.eqb c sep then "" :: split_on sep s'
      else match split_on sep s' with
           | w :: ws => String c w :: ws
           | [] => [String c ""]
           end
  end.

(** [sep.join(pieces)] *)
Fixpoint join (sep : string) (pieces : list string) : string :=
  match pieces with
  | [] => ""
  | [w] => w
  | w :: rest => (w ++ sep ++ join sep rest)%string
  end.

(** [s[:-1]] *)
Fixpoint drop_last (s : string) : string :=
  match s with
  | EmptyString => ""
  | String c EmptyString => ""
  | String c s' => String c (drop_last s')
  end.

(** *** get_device_to_infer (226-238) *)

Definition get_device_to_infer (device_name : string) : result device :=
  if String.eqb device_name "CPU" then Ok cpu
  else if String.eqb device_name "NVIDIA_GPU" then Ok cuda
  else Raise (ValueError "The device is not supported").

(** *** get_tensor_rt_dtype (249-258) *)

Inductive torch_dtype : Type := torch_float | torch_half | torch_int.

(** [if tensor_rt_precision:] on [None] or a string. *)
Definition get_tensor_rt_dtype (tensor_rt_precision : option string)
  : result (option torch_dtype) :=
  match tensor_rt_precision with
  | None => Ok None
  | Some p =>
      if String.eqb p "" then Ok None
      else if String.eqb p "FP32" then Ok (Some torch_float)
      else if String.eqb p "FP16" then Ok (Some torch_half)
      else Raise (ValueError ("Unknown TensorRT precision " ++ p)%string)
  end.

(** *** load_model_from_file (277-287) *)

Definition load_model_from_file (model_path : string) : result pyval :=
  let file_type := last (split_on "." model_path) "" in
  let supported_extensions := ["pt"] in
  if negb (in_list file_type supported_extensions) then
    Raise (ValueError ("The file type " ++ file_type ++ " is not supported")%string)
  else
    Ok (call (PObj "torch.load") [PStr model_path]).

(** *** The custom model links of main (654-660) *)

(** A dictionary from strings to strings: assignment replaces the value of
    a key that is present and appends a new key. *)
Fixpoint links_set (k v : string) (links : list (string * string))
  : list (string * string) :=
  match links with
  | [] => [(k, v)]
  | (k', v') :: rest =>
      if String.eqb k k' then (k, v) :: rest
      else (k', v') :: links_set k v rest
  end.

(** The body of the loop over the comma-separated items: the text before
    the first bracket names the model, the rest without its last character
    is the link. *)
Definition custom_model_link (item : string) : string * string :=
  let model_url_parts := split_on "[" item in
  let model := hd "" model_url_parts in
  let url := drop_last (join "[" (tl model_url_parts)) in
  (model, url).

Definition custom_models_dict (custom_models_links : option string)
  : list (string * string) :=
  match custom_models_links with
  | None => []
  | Some links =>
      if String.eqb links "" then []
      else
        fold_left
          (fun custom_models_dict item =>
             let '(model, url) := custom_model_link item in
             links_set model url custom_models_dict)
          (split_on "," links)
          []
  end.

(** *** compile_model (313-373) *)

(** [re.match(r'(1.\d)\S+', torch_version)]: the version starts with the
    character 1, any character but a newline, a decimal digit and at
    least one character that is not whitespace. *)
Definition is_digit (c : ascii) : bool :=
  ((48 <=? nat_of_ascii c) && (nat_of_ascii c <=? 57))%nat.

Definition matches_torch_1 (torch_version : string) : bool :=
  match torch_version with
  | String c1 (String c2 (String c3 (String c4 _))) =>
      Ascii.eqb c1 "1" && negb (Ascii.eqb c2 "010")
      && is_digit c3 && negb (is_space (N_of_ascii c4))
  | _ => false
  end.

(** What [compile_model] reads from the installation: the version of
    torch, whether a GPU is available, whether the guarded
    [import torch_tensorrt] of lines 30-33 succeeded (the [ImportError] is
    swallowed there, so that the name may be undefined later), and which
    values are instances of [torch.nn.Module]. *)
Record torch_env : Type := {
  torch_version : string;
  gpu_available : bool;
  tensorrt_imported : bool;
  is_nn_module : pyval -> bool
}.

(** The in-place operations [compile_model] applies to a model. *)
Inductive model_op : Type :=
| Model_to (model : pyval) (d : device)
| Model_half (model : pyval)
| Model_eval (model : pyval).

(** [if x:] on [None] or a string. *)
Definition given_string (x : option string) : option string :=
  match x with
  | Some s => if String.eqb s "" then None else Some s
  | None => None
  end.

Definition torch_dtype_val (t : torch_dtype) : pyval :=
  match t with
  | torch_float => PObj "torch.float"
  | torch_half => PObj "torch.half"
  | torch_int => PObj "torch.int"
  end.

Definition dtype_is_half (t : torch_dtype) : bool :=
  match t with torch_half => true | _ => false end.

(** [compile_model] returns the compiled model together with the in-place
    operations it applied, in order; when it raises, the operations
    applied before the exception are kept. *)
Definition compile_model
    (T : torch_env) (model : pyval) (d : device) (model_type : string)
    (shapes : kwdict) (input_type : option string)
    (tensor_rt_dtype : option torch_dtype) (precision : option string)
    (compile_backend : option string)
    (custom_compile_func custom_trace_func : option pyval)
  : result pyval * list model_op :=
  let input_is_int64 :=
    match input_type with Some t => String.eqb t "int64" | None => false end in
  let continue (model : pyval) : result pyval * list model_op :=
    let ops := [Model_to model d] in
    let ops :=
      if match precision with Some p => String.eqb p "FP16" | None => false end
         && is_nn_module T model
      then ops ++ [Model_half model] else ops in
    let ops :=
      if is_nn_module T model then ops ++ [Model_eval model] else ops in
    let compiled : result pyval :=
      match given_string compile_backend with
      | Some backend =>
          if negb (matches_torch_1 (torch_version T)) then
            let mode := PStr "default" in
            match custom_compile_func with
            | Some f =>
                Ok (PCall f [] [("model", model); ("mode", mode);
                               ("backend", PStr backend)])
            | None =>
                Ok (PCall (PObj "torch.compile") [model]
                      [("mode", mode); ("backend", PStr backend)])
            end
          else
            Raise (ValueError
                     ("Torch.Compile is only available for PyTorch 2.x versions. "
                      ++ "Current version: " ++ torch_version T)%string)
      | None => Ok model
      end in
    match compiled with
    | Raise e => (Raise e, ops)
    | Ok model =>
        match tensor_rt_dtype with
        | Some dtype =>
            if gpu_available T then
              let model :=
                if String.eqb model_type "baseline" then
                  match custom_trace_func with
                  | Some f =>
                      PCall f [] [("model", model); ("device", device_val d);
                                  ("shapes", PCall (PObj "dict") [] shapes)]
                  | None =>
                      let input_rand :=
                        map (fun '(key, shape) =>
                               to_ (call (PObj "torch.rand") [shape])
                                   (device_val d))
                            shapes in
                      let input_rand :=
                        if input_is_int64
                        then map (fun key => call (PAttr key "int") [])
                                 input_rand
                        else input_rand in
                      call (PObj "torch.jit.trace") [model; PList input_rand]
                  end
                else model in
              let ops :=
                if dtype_is_half dtype && is_nn_module T model
                then ops ++ [Model_half model] else ops in
              let inputs :=
                map (fun '(key, shape) =>
                       PCall (PObj "torch_tensorrt.Input") [shape]
                         [("dtype",
                           if negb input_is_int64 then torch_dtype_val dtype
                           else torch_dtype_val torch_int)])
                    shapes in
              if tensorrt_imported T then
                (Ok (PCall (PObj "torch_tensorrt.compile") [model]
                       [("inputs", PList inputs);
                        ("truncate_long_and_double", PObj "True");
                        ("enabled_precisions", torch_dtype_val dtype)]),
                 ops)
              else
                (Raise (NameError "name 'torch_tensorrt' is not defined"),
                 ops)
            else (Raise (ValueError "GPU is not available"), ops)
        | None => (Ok model, ops)
        end
    end in
  if String.eqb model_type "baseline" then continue model
  else if String.eqb model_type "scripted" then
    let model := call (PObj "torch.jit.script") [model] in
    match given_string compile_backend with
    | Some _ =>
        (Raise (ValueError "Can`t use torch.compile() with scripted model"),
         [])
    | None => continue model
    end
  else
    (Raise (ValueError ("Model type " ++ model_type
                        ++ " is not supported for inference")%string),
     []).

(** *** load_model_from_config (290-310) *)

(** What [load_model_from_config] reads from the model class of the
    configuration after it has set the name and the weights and created
    the model: the attributes [weights] and [pretrained] and the two flags
    for custom compile and trace steps. *)
Record model_class : Type := {
  class_object : pyval;
  class_weights : pyval;
  class_pretrained : bool;
  use_custom_compile_step : bool;
  use_custom_trace_step : bool
}.

(** The function returns a triple, or falls off its end and returns
    [None]. *)
Definition load_model_from_config
    (model_cls : model_class) (d : pyval) (num_gpu_devices : pyval)
    (precision : pyval) (should_be_traced : pyval)
    (custom_models_links : pyval)
  : option (pyval * option pyval * option pyval) :=
  let model :=
    PCall (PAttr (class_object model_cls) "create_model") []
      [("device", d); ("num_gpu_devices", num_gpu_devices);
       ("precision", precision); ("should_be_traced", should_be_traced);
       ("custom_models_links", custom_models_links);
       ("log", PObj "log")] in
  let weights :=
    if truthy (class_weights model_cls) && negb (class_pretrained model_cls)
    then class_weights model_cls else PNone in
  let custom_compile_func :=
    if use_custom_compile_step model_cls
    then Some (PAttr (class_object model_cls) "compile_model") else None in
  let custom_trace_func :=
    if use_custom_trace_step model_cls
    then Some (PAttr (class_object model_cls) "trace_model") else None in
  if truthy weights then
    Some (PCall model [] [("weights", weights)],
          custom_compile_func, custom_trace_func)
  else if class_pretrained model_cls then
    Some (model, custom_compile_func, custom_trace_func)
  else None.

(** ** Vocabulary of the statements *)

(** The exception [validate] raises for [num]. *)
Definition incorrect_thread_count (num : Z) : exn :=
  ValueError ("Incorrect thread count: " ++ str_of_int num)%string.

(** The task types the command line accepts (the [choices] of [--task] in
    [cli_argument_parser]). *)
Definition task_choices : list string :=
  ["feedforward"; "classification"; "text-to-image";
   "named-entity-recognition"; "yolo_v7"; "text-generation";
   "batch-text-generation"; "text-translation"; "speech-to-text"].

(** The calls that run the model, among the effects of a run. *)
Definition is_invocation (e : event) : bool :=
  match e with Invoke _ _ _ => true | _ => false end.

Definition invocations (tr : list event) : list event :=
  filter is_invocation tr.

(** A call of [callee] with the keyword arguments [kwargs] runs [model]:
    the callee is the model itself or its [translate_batch] entry point,
    or it is a generation entry point that is handed the model under the
    keyword it reads it from. *)
Definition runs_model (model callee : pyval) (kwargs : kwdict) : Prop :=
  callee = model
  \/ callee = PAttr model "translate_batch"
  \/ ((callee = causal_lm "generate" \/ callee = speech "generate")
      /\ dict_get "model" kwargs = Some model)
  \/ (callee = gpt_2 "batch_text_generation"
      /\ dict_get "torch_model" kwargs = Some model).

(** The task types [inference_iteration] has a branch for. *)
Definition looped_tasks : list string :=
  ["classification"; "feedforward"; "named-entity-recognition";
   "text-generation"; "speech-to-text"; "batch-text-generation";
   "text-to-image"; "text-translation"].

(** The tensors the list comprehension over [input_names] builds when the
    next slice to be drawn is the [k]-th. *)
Fixpoint tensors_from (k : nat) (input_names : list string) (d : device)
  : list pyval :=
  match input_names with
  | [] => []
  | input_name :: rest =>
      torch_tensor (PItem (PSlice k) (PStr input_name)) d
      :: tensors_from (S k) rest d
  end.

(** [built_from x v]: the value [v] is [x] itself or is obtained from [x]
    by attribute access, indexing, method or helper calls, or tupling. *)
Inductive built_from (x : pyval) : pyval -> Prop :=
| built_here : built_from x x
| built_attr (o : pyval) (name : string) :
    built_from x o -> built_from x (PAttr o name)
| built_item (o key : pyval) :
    built_from x o -> built_from x (PItem o key)
| built_method (f : pyval) (args : list pyval) (kwargs : kwdict) :
    built_from x f -> built_from x (PCall f args kwargs)
| built_arg (f a : pyval) (args : list pyval) (kwargs : kwdict) :
    In a args -> built_from x a -> built_from x (PCall f args kwargs)
| built_tuple (a : pyval) (items : list pyval) :
    In a items -> built_from x a -> built_from x (PTuple items).

(** The effects a computation adds to the trace of the state it starts
    from. *)
Definition added (before after : state) : list event :=
  skipn (List.length (trace before)) (trace after).

(** The slices that occur in a value, by their numbers. *)
Fixpoint slices_of (v : pyval) : list nat :=
  match v with
  | PNone | PInt _ | PStr _ | PObj _ => []
  | PList items | PTuple items => flat_map slices_of items
  | PSlice k => [k]
  | PAttr o _ => slices_of o
  | PItem o key => slices_of o ++ slices_of key
  | PUnpacked o => slices_of o
  | PPartial f bound =>
      slices_of f ++ flat_map (fun entry => slices_of (snd entry)) bound
  | PCall f args kwargs =>
      slices_of f ++ flat_map slices_of args
      ++ flat_map (fun entry => slices_of (snd entry)) kwargs
  end.

(** The slices that reach the model in the calls of a trace. *)
Definition slices_called (tr : list event) : list nat :=
  flat_map
    (fun e =>
       match e with
       | Invoke callee args kwargs => slices_of (PCall callee args kwargs)
       | _ => []
       end)
    tr.

(** Whether the character [c] occurs in [s]. *)
Fixpoint contains (c : ascii) (s : string) : bool :=
  match s with
  | EmptyString => false
  | String c' s' => Ascii.eqb c' c || contains c s'
  end.

(** The text of the option [--custom_models_links] for a list of models
    and links: [model_name_1[url],model_name_2[url]]. *)
Definition link_item (entry : string * string) : string :=
  (fst entry ++ "[" ++ snd entry ++ "]")%string.

Definition links_text (entries : list (string * string)) : string :=
  join "," (map link_item entries).

(** Whether a string consists of whitespace only. *)
Fixpoint blank (s : str) : bool :=
  match s with
  | [] => true
  | c :: s' => is_space c && blank s'
  end.

(** * Properties *)

(** ** Token counting *)

Section Folds.

Context {A B : Type}.

Lemma fold_left_snoc (f : A -> B) (l : list A) (init : list B) :
  fold_left (fun acc i => acc ++ [f i]) l init = init ++ map f l.
Proof.
  revert init; induction l as [|x l IH]; intros init; simpl.
  - now rewrite app_nil_r.
  - rewrite IH, <- app_assoc. reflexivity.
Qed.

Lemma fold_left_count (p : A -> bool) (l : list A) (a : Z) :
  fold_left (fun n j => if p j then n + 1 else n) l a
  = a + Z.of_nat (List.length (filter p l)).
Proof.
  revert a; induction l as [|x l IH]; intros a; simpl.
  - lia.
  - rewrite IH. destruct (p x); simpl List.length; lia.
Qed.

Lemma filter_map_length (q : B -> bool) (f : A -> B) (l : list A) :
  List.length (filter q (map f l))
  = List.length (filter (fun x => q (f x)) l).
Proof.
  induction l as [|x l IH]; simpl; [reflexivity|].
  destruct (q (f x)); simpl; now rewrite IH.
Qed.

End Folds.

(** The count of one row, as the inner loop computes it. *)
Lemma row_count (t : tensor) (dot_token : Z) (i : nat) :
  fold_left
    (fun n j => if negb (item t i j =? dot_token) then n + 1 else n)
    (seq 0 (shape1 t)) 1
  = 1 + Z.of_nat (non_filler dot_token (row t i)).
Proof.
  rewrite (fold_left_count (fun j => negb (item t i j =? dot_token))).
  unfold non_filler, row. now rewrite filter_map_length.
Qed.

Lemma get_meaning_tokens_from_batch_map
    (t : tensor) (input_size dot_token : Z) :
  get_meaning_tokens_from_batch t input_size dot_token
  = map (fun i => 1 + Z.of_nat (non_filler dot_token (row t i)) - input_size)
        (seq 0 (shape0 t)).
Proof.
  unfold get_meaning_tokens_from_batch. simpl.
  rewrite (fold_left_snoc
             (fun i =>
                fold_left
                  (fun n j =>
                     if negb (item t i j =? dot_token) then n + 1 else n)
                  (seq 0 (shape1 t)) 1 - input_size)).
  simpl. apply map_ext. intros i. now rewrite row_count.
Qed.

(** Rows of a grid given as a rectangular list of lists. *)
Lemma row_of_rows (rows : list (list Z)) (i : nat) :
  (i < List.length rows)%nat ->
  Forall (fun r => List.length r = List.length (hd [] rows)) rows ->
  row (of_rows rows) i = nth i rows [].
Proof.
  intros Hi Hrect. unfold row, of_rows; simpl.
  assert (Hlen : List.length (nth i rows []) = List.length (hd [] rows)).
  { rewrite Forall_forall in Hrect. apply Hrect. now apply nth_In. }
  rewrite <- Hlen. clear Hlen Hrect Hi.
  generalize (nth i rows []) as r. intros r.
  induction r as [|x r IH]; simpl; [reflexivity|].
  f_equal. rewrite <- seq_shift, map_map. exact IH.
Qed.

(** C1: [get_meaning_tokens_from_batch] returns one integer per batch row,
    in row order; the value of row [i] is one (the trailing end token) plus
    the number of entries of the row that differ from the filler token,
    minus [input_size].  On the grid [[5,7,2,2,2],[5,7,9,2,2]] with filler
    token 2 and prompt length 1 it returns [2, 3]. *)
Theorem get_meaning_tokens_from_batch_spec :
  forall (generated_output : tensor) (input_size dot_token : Z),
    get_meaning_tokens_from_batch generated_output input_size dot_token
    = map (fun i =>
             1 + Z.of_nat (non_filler dot_token (row generated_output i))
             - input_size)
          (seq 0 (shape0 generated_output))
    /\ List.length
         (get_meaning_tokens_from_batch generated_output input_size dot_token)
       = shape0 generated_output
    /\ get_meaning_tokens_from_batch
         (of_rows [[5; 7; 2; 2; 2]; [5; 7; 9; 2; 2]]) 1 2
       = [2; 3].
Proof.
  intros t input_size dot_token.
  rewrite get_meaning_tokens_from_batch_map.
  split; [reflexivity|]. split.
  - now rewrite length_map, length_seq.
  - reflexivity.
Qed.

(** C7, as stated, fails: a three-token prompt that contains the filler
    token twice, followed at once by the end of the sequence. *)
Lemma token_count_can_be_negative :
  get_meaning_tokens_from_batch (of_rows [[2; 2; 7; 2]]) 3 2 = [-1]
  /\ ~ Forall (fun n => 0 <= n)
             (get_meaning_tokens_from_batch (of_rows [[2; 2; 7; 2]]) 3 2).
Proof.
  split; [reflexivity|].
  intros H. inversion H as [|n l Hn Hl]; subst. lia.
Qed.

(** C7, amended: the value of a row is non-negative exactly when
    [input_size] is at most one plus the number of non-filler entries of
    that row; nothing clamps it. *)
Theorem token_counts_nonnegative_iff :
  forall (generated_output : tensor) (input_size dot_token : Z),
    Forall (fun n => 0 <= n)
           (get_meaning_tokens_from_batch generated_output input_size dot_token)
    <-> (forall i, (i < shape0 generated_output)%nat ->
           input_size
           <= 1 + Z.of_nat (non_filler dot_token (row generated_output i))).
Proof.
  intros t input_size dot_token.
  rewrite get_meaning_tokens_from_batch_map, Forall_map, Forall_forall.
  split.
  - intros H i Hi. specialize (H i). rewrite in_seq in H. lia.
  - intros H i Hi. rewrite in_seq in Hi. specialize (H i). lia.
Qed.

(** On the grid of the example with prompt length 1 every count is
    non-negative, by the criterion above. *)
Lemma token_counts_nonnegative_iff_witness :
  Forall (fun n => 0 <= n)
         (get_meaning_tokens_from_batch
            (of_rows [[5; 7; 2; 2; 2]; [5; 7; 9; 2; 2]]) 1 2).
Proof.
  apply (token_counts_nonnegative_iff
           (of_rows [[5; 7; 2; 2; 2]; [5; 7; 9; 2; 2]]) 1 2).
  intros i Hi. simpl in Hi.
  destruct i as [|[|i]]; [vm_compute; discriminate | vm_compute; discriminate | lia].
Defined.

(** ** Thread settings *)

(** One of the two blocks of [set_thread_num], case by case. *)
Lemma thread_setting_step
    (num : option Z) (setting : Z -> event) (s : state) :
  if_given num (fun n => (validate n ;;; torch_setter setting n)%py) s
  = match num with
    | Some n =>
        if n =? 0 then (Ok tt, s)
        else if n <? 0 then (Raise (incorrect_thread_count n), s)
        else if fits_c_int n
             then (Ok tt, {| time_reads := time_reads s;
                             slices_drawn := slices_drawn s;
                             trace := trace s ++ [setting n] |})
             else (Raise (RuntimeError "Overflow when unpacking long"), s)
    | None => (Ok tt, s)
    end.
Proof.
  destruct num as [n|]; simpl; [|reflexivity].
  destruct (n =? 0); [reflexivity|].
  unfold validate, torch_setter, bind.
  destruct (n <? 0); [reflexivity|].
  destruct (fits_c_int n); reflexivity.
Qed.

Lemma set_thread_num_steps
    (num_inter_threads num_intra_threads : option Z) (s : state) :
  set_thread_num num_inter_threads num_intra_threads s
  = match if_given num_inter_threads
            (fun n => (validate n ;;; torch_setter Set_num_interop_threads n)%py)
            s with
    | (Ok _, s') =>
        if_given num_intra_threads
          (fun n => (validate n ;;; torch_setter Set_num_threads n)%py) s'
    | (Raise e, s') => (Raise e, s')
    end.
Proof. reflexivity. Qed.

Ltac thread_cases :=
  rewrite set_thread_num_steps, !thread_setting_step;
  repeat match goal with
         | |- context [?n =? 0] => destruct (n =? 0) eqn:?
         | |- context [?n <? 0] => destruct (n <? 0) eqn:?
         | |- context [fits_c_int ?n] => destruct (fits_c_int n) eqn:?
         | _ => rewrite thread_setting_step
         end;
  cbn [fst snd trace time_reads slices_drawn is_ok].

(** C9, as stated, fails: a positive count is not always applied without
    error.  A count beyond the range of a C int passes [validate] and is
    then refused by the torch setter; and a positive intra-op count is
    never reached when the inter-op count is negative.  In both runs an
    error is raised and nothing is set. *)
Lemma positive_count_can_be_refused :
  (is_ok (fst (set_thread_num (Some 2147483648) None initial)) = false
   /\ snd (set_thread_num (Some 2147483648) None initial) = initial)
  /\ (is_ok (fst (set_thread_num (Some (-1)) (Some 4) initial)) = false
      /\ snd (set_thread_num (Some (-1)) (Some 4) initial) = initial).
Proof.
  repeat split; reflexivity.
Qed.

(** C9, amended: a negative count makes [set_thread_num] fail before the
    torch setting of that parameter is applied, with the thread-count
    [ValueError] of the first negative count that is reached.  A positive
    count that fits a C int passes its validation and its torch setting is
    applied, for the intra-op count provided the inter-op block did not
    raise; no error arises from it.  A positive count just beyond the
    range of a C int, from [2^31] to [2^32 - 1], is not rejected by
    [set_thread_num] itself: the torch setter raises and nothing is
    set. *)
Theorem set_thread_num_validates :
  forall (s : state),
    (forall n intra, n < 0 ->
       set_thread_num (Some n) intra s = (Raise (incorrect_thread_count n), s))
    /\ (forall inter n, n < 0 ->
          is_ok (fst (set_thread_num inter (Some n) s)) = false
          /\ (exists applied,
                trace (snd (set_thread_num inter (Some n) s))
                = trace s ++ applied
                /\ (forall m, ~ In (Set_num_threads m) applied))
          /\ ((forall k, inter = Some k -> 0 <= k /\ fits_c_int k = true) ->
              fst (set_thread_num inter (Some n) s)
              = Raise (incorrect_thread_count n)))
    /\ (forall k intra, 0 < k -> fits_c_int k = true ->
          exists rest,
            trace (snd (set_thread_num (Some k) intra s))
            = trace s ++ Set_num_interop_threads k :: rest
            /\ (fst (set_thread_num (Some k) intra s) = Ok tt
                \/ exists n, intra = Some n
                     /\ (n < 0 \/ fits_c_int n = false)
                     /\ is_ok (fst (set_thread_num (Some k) intra s))
                        = false))
    /\ (forall inter n, 0 < n -> fits_c_int n = true ->
          (forall k, inter = Some k -> 0 <= k /\ fits_c_int k = true) ->
          exists before,
            fst (set_thread_num inter (Some n) s) = Ok tt
            /\ trace (snd (set_thread_num inter (Some n) s))
               = trace s ++ before ++ [Set_num_threads n])
    /\ (forall k intra, 2147483647 < k < 4294967296 ->
          is_ok (fst (set_thread_num (Some k) intra s)) = false
          /\ snd (set_thread_num (Some k) intra s) = s).
Proof.
  intros s. split; [|split; [|split; [|split]]].
  - intros n intra Hn. thread_cases; try lia; reflexivity.
  - intros inter n Hn. destruct inter as [k|]; thread_cases; try lia;
      (split; [reflexivity|split]);
      try (intros Hk; try reflexivity;
           destruct (Hk k eq_refl) as [Hk0 Hkfit]; try lia; congruence);
      try (exists []; rewrite app_nil_r; split; [reflexivity|tauto]);
      try (exists [Set_num_interop_threads k]; split;
           [reflexivity|intros m [Hm|[]]; discriminate]).
  - intros k intra Hk Hfit.
    destruct intra as [n|]; thread_cases; try lia; try congruence;
      try (exists []; split; [reflexivity|]; try (now left);
           right; exists n; repeat split; auto; lia);
      try (exists [Set_num_threads n]; rewrite <- app_assoc;
           split; [reflexivity|now left]).
  - intros inter n Hn Hfit Hinter.
    destruct inter as [k|];
      [destruct (Hinter k eq_refl) as [Hk0 Hkfit]|];
      thread_cases; try lia; try congruence;
      try (exists []; split; reflexivity);
      try (exists [Set_num_interop_threads k]; rewrite <- app_assoc;
           split; reflexivity).
  - intros k intra Hk.
    assert (Hfit : fits_c_int k = false).
    { unfold fits_c_int. apply andb_false_iff. right. apply Z.leb_gt. lia. }
    rewrite set_thread_num_steps, thread_setting_step.
    rewrite Hfit.
    destruct (k =? 0) eqn:?; [lia|]. destruct (k <? 0) eqn:?; [lia|].
    split; reflexivity.
Qed.

(** The cases on concrete counts. *)
Lemma set_thread_num_validates_witness :
  set_thread_num (Some (-3)) (Some 4) initial
  = (Raise (incorrect_thread_count (-3)), initial)
  /\ fst (set_thread_num (Some 4) (Some (-3)) initial)
     = Raise (incorrect_thread_count (-3))
  /\ (exists before,
        fst (set_thread_num (Some 2) (Some 4) initial) = Ok tt
        /\ trace (snd (set_thread_num (Some 2) (Some 4) initial))
           = trace initial ++ before ++ [Set_num_threads 4])
  /\ (is_ok (fst (set_thread_num (Some 2147483648) (Some 4) initial)) = false
      /\ snd (set_thread_num (Some 2147483648) (Some 4) initial) = initial).
Proof.
  destruct (set_thread_num_validates initial)
    as (Hinter & Hintra & _ & Hpos & Hwide).
  split; [|split; [|split]].
  - apply Hinter. lia.
  - apply Hintra; [lia|]. intros k Hk. injection Hk as <-.
    split; [lia|reflexivity].
  - apply Hpos; [lia|reflexivity|]. intros k Hk. injection Hk as <-.
    split; [lia|reflexivity].
  - apply Hwide. lia.
Defined.

(** ** Output formatting *)

(** C5: [prepare_output] raises the output-names [ValueError] whenever the
    list of output names is [None] or empty, whatever the result and the
    task type are: the check precedes the dispatch on the task type. *)
Theorem prepare_output_requires_names :
  forall (result_ : pyval) (task_type : string),
    prepare_output result_ None task_type
    = Raise (ValueError output_names_message)
    /\ prepare_output result_ (Some []) task_type
       = Raise (ValueError output_names_message).
Proof.
  intros result_ task_type. split; reflexivity.
Qed.

(** ** The input shape of TensorFlowParameters *)

Section Input_shape.

Import TensorFlowParameters.

Context {base : FrameworkParameters}.

Lemma every_token_is_int_Forall (shape_check : list str) :
  every_token_is_int shape_check = true
  <-> Forall (fun i => _int_value_is_correct (Some i) = true) shape_check.
Proof.
  induction shape_check as [|i rest IH]; simpl.
  - split; auto.
  - destruct (_int_value_is_correct (Some i)) eqn:Hi; simpl.
    + rewrite IH. split.
      * intros H. now constructor.
      * intros H. now inversion H.
    + split; [discriminate|].
      intros H. inversion H; congruence.
Qed.

Lemma input_shape_check (s : str) :
  _input_shape_is_correct (Some s) = Ok true
  <-> List.length (split s) = 3%nat
      /\ Forall (fun i => _int_value_is_correct (Some i) = true) (split s).
Proof.
  unfold _input_shape_is_correct.
  destruct (List.length (split s) =? 3)%nat eqn:Hlen; simpl.
  - apply Nat.eqb_eq in Hlen. rewrite <- every_token_is_int_Forall.
    split.
    + intros H. injection H as H. now split.
    + intros [_ H]. now rewrite H.
  - apply Nat.eqb_neq in Hlen. split.
    + discriminate.
    + intros [H _]. contradiction.
Qed.

Lemma input_shape_check_total (s : str) :
  exists b, _input_shape_is_correct (Some s) = Ok b.
Proof.
  unfold _input_shape_is_correct.
  destruct (negb _); eauto.
Qed.

Lemma validated_plain_raises
    (value : option str) (check : option str -> bool)
    (message : string) (e : exn) :
  validated value (fun v => Ok (check v)) message = Raise e ->
  e = ValueError message.
Proof.
  unfold validated.
  destruct (_parameter_is_not_none value); [|discriminate].
  destruct (check value); [discriminate|].
  intros H. now injection H as <-.
Qed.

(** A guarded block with a plain check lets the constructor go on, with
    the field set as [stored] says, or raises its message. *)
Lemma validated_plain
    (value : option str) (check : option str -> bool) (message : string) :
  validated value (fun v => Ok (check v)) message
  = if negb (_parameter_is_not_none value) || check value
    then Ok (stored value) else Raise (ValueError message).
Proof.
  unfold validated, stored.
  destruct (_parameter_is_not_none value); [|reflexivity].
  now destruct (check value).
Qed.

Lemma passes_iff (value : option str) (check : option str -> bool) :
  _parameter_is_not_none value = false \/ check value = true
  <-> negb (_parameter_is_not_none value) || check value = true.
Proof.
  destruct (_parameter_is_not_none value), (check value); simpl;
    intuition discriminate.
Qed.

(** Settles one conjunct about the constructor once its outcome is known. *)
Ltac settle :=
  intros;
  first [ reflexivity
        | discriminate
        | tauto
        | intuition congruence
        | match goal with
          | H : exists _, _ |- _ => destruct H as (? & H' & _); discriminate H'
          end
        | match goal with
          | H : Ok _ = Ok _ |- _ =>
              injection H as <-; split; [reflexivity|assumption]
          end
        | eexists; split; [reflexivity|discriminate]
        | eexists; split; reflexivity
        | eexists; reflexivity ].

Ltac settle_all :=
  split; [split; settle|]; repeat (split; [settle|]); settle.

(** C10, amended: for an input-shape string that the presence test lets
    through, the input-shape step of the constructor keeps the string
    exactly when it splits on whitespace into three tokens that each pass
    the integer-value check, and raises the input-shape [ValueError]
    otherwise.  The constructor as a whole produces an object, with the
    string in its [input_shape] field, exactly when the string is such and
    each of the six other checked arguments (channel swap, mean and input
    scale before the shape; thread count and the two parallelism counts
    after it) is absent or passes its own check.  When the three earlier
    arguments pass and the shape does not, the input-shape [ValueError] is
    raised; whenever the shape does not pass, some [ValueError] is raised
    and no object is produced; when the shape passes, the input-shape
    [ValueError] is not raised, and if another argument fails, that
    argument's [ValueError] is. *)
Theorem input_shape_accepted_iff :
  forall (channel_swap mean input_scale input_name output_names thread_count
          inter_op_parallelism_threads intra_op_parallelism_threads
          kmp_affinity use_xla : option str) (s : str),
    _parameter_is_not_none (Some s) = true ->
    let three_ints :=
      List.length (split s) = 3%nat
      /\ Forall (fun i => _int_value_is_correct (Some i) = true) (split s) in
    let made :=
      __init__ channel_swap mean input_scale (Some s) input_name output_names
        thread_count inter_op_parallelism_threads
        intra_op_parallelism_threads kmp_affinity use_xla in
    let passes (value : option str) (check : option str -> bool) :=
      _parameter_is_not_none value = false \/ check value = true in
    let earlier_pass :=
      passes channel_swap _channel_swap_is_correct
      /\ passes mean _mean_is_correct
      /\ passes input_scale _float_value_is_correct in
    let later_pass :=
      passes thread_count _int_value_is_correct
      /\ passes inter_op_parallelism_threads _int_value_is_correct
      /\ passes intra_op_parallelism_threads _int_value_is_correct in
    (validated (Some s) _input_shape_is_correct input_shape_message
     = Ok (Some s) <-> three_ints)
    /\ (~ three_ints ->
        validated (Some s) _input_shape_is_correct input_shape_message
        = Raise (ValueError input_shape_message))
    /\ ((exists self, made = Ok self /\ input_shape self = Some s)
        <-> three_ints /\ earlier_pass /\ later_pass)
    /\ (forall self, made = Ok self -> input_shape self = Some s /\ three_ints)
    /\ (earlier_pass -> ~ three_ints ->
        made = Raise (ValueError input_shape_message))
    /\ (~ three_ints -> exists message, made = Raise (ValueError message))
    /\ (three_ints -> made <> Raise (ValueError input_shape_message))
    /\ (three_ints -> ~ (earlier_pass /\ later_pass) ->
        exists message,
          made = Raise (ValueError message)
          /\ message <> input_shape_message).
Proof.
  intros channel_swap mean input_scale input_name output_names thread_count
         inter intra kmp_affinity use_xla s Hpresent three_ints made passes
         earlier_pass later_pass.
  assert (Hstep :
    validated (Some s) _input_shape_is_correct input_shape_message
    = if every_token_is_int (split s)
         && (List.length (split s) =? 3)%nat
      then Ok (Some s) else Raise (ValueError input_shape_message)).
  { unfold validated, _input_shape_is_correct. rewrite Hpresent.
    destruct (List.length (split s) =? 3)%nat; simpl.
    - rewrite andb_true_r. now destruct (every_token_is_int (split s)).
    - now rewrite andb_false_r. }
  assert (Hiff :
    every_token_is_int (split s) && (List.length (split s) =? 3)%nat = true
    <-> three_ints).
  { unfold three_ints.
    rewrite andb_true_iff, Nat.eqb_eq, every_token_is_int_Forall. tauto. }
  assert (Hok :
    validated (Some s) _input_shape_is_correct input_shape_message
    = Ok (Some s) <-> three_ints).
  { rewrite Hstep, <- Hiff.
    destruct (every_token_is_int (split s)
              && (List.length (split s) =? 3)%nat); split;
      try reflexivity; try discriminate. }
  assert (Hfail :
    ~ three_ints ->
    validated (Some s) _input_shape_is_correct input_shape_message
    = Raise (ValueError input_shape_message)).
  { intros Hno. rewrite Hstep.
    destruct (every_token_is_int (split s)
              && (List.length (split s) =? 3)%nat) eqn:Hb;
      [|reflexivity].
    exfalso. apply Hno. now apply Hiff. }
  split; [exact Hok|]. split; [exact Hfail|].
  clear Hok Hfail. clearbody three_ints.
  subst made earlier_pass later_pass passes. cbv beta.
  rewrite !passes_iff.
  unfold __init__, and_then. rewrite !validated_plain, Hstep.
  clear Hstep.
  destruct (negb (_parameter_is_not_none channel_swap) || _) eqn:H1;
    [|settle_all].
  destruct (negb (_parameter_is_not_none mean) || _) eqn:H2;
    [|settle_all].
  destruct (negb (_parameter_is_not_none input_scale) || _) eqn:H3;
    [|settle_all].
  destruct (every_token_is_int (split s)
            && (List.length (split s) =? 3)%nat) eqn:Hb.
  2:{ assert (Hno : ~ three_ints) by (intros H; apply Hiff in H; discriminate).
      clear Hiff. settle_all. }
  assert (Hyes : three_ints) by now apply Hiff.
  clear Hiff.
  destruct (negb (_parameter_is_not_none thread_count) || _) eqn:H5;
    [|settle_all].
  destruct (negb (_parameter_is_not_none inter) || _) eqn:H6;
    [|settle_all].
  destruct (negb (_parameter_is_not_none intra) || _) eqn:H7;
    [|settle_all].
  settle_all.
Qed.

End Input_shape.

(** C10, as stated, fails: a shape of three integer tokens is refused when
    another argument of the constructor is, here the thread count. *)
Lemma valid_shape_can_be_refused :
  _parameter_is_not_none (Some (text "224 224 3")) = true
  /\ split (text "224 224 3") = [text "224"; text "224"; text "3"]
  /\ Forall (fun i => _int_value_is_correct (Some i) = true)
            (split (text "224 224 3"))
  /\ TensorFlowParameters.__init__ None None None (Some (text "224 224 3"))
       None None (Some (text "four")) None None None None
     = Raise (ValueError TensorFlowParameters.thread_count_message).
Proof.
  split; [reflexivity|]. split; [reflexivity|].
  split; [repeat constructor|reflexivity].
Qed.

(** The shape "224 224 3" under the sample validators, alone and next to
    a thread count. *)
Lemma input_shape_accepted_iff_witness :
  _parameter_is_not_none (Some (text "224 224 3")) = true
  /\ TensorFlowParameters.validated (Some (text "224 224 3"))
       TensorFlowParameters._input_shape_is_correct
       TensorFlowParameters.input_shape_message
     = Ok (Some (text "224 224 3"))
  /\ exists self,
       TensorFlowParameters.__init__ None None None
         (Some (text "224 224 3")) None None (Some (text "4")) None None
         None None = Ok self
       /\ TensorFlowParameters.input_shape self = Some (text "224 224 3").
Proof.
  split; [reflexivity|].
  destruct (input_shape_accepted_iff (base := sample_base)
              None None None None None (Some (text "4")) None None None None
              (text "224 224 3") eq_refl)
    as (Hstep & _ & Hmade & _).
  split.
  - apply Hstep. split; [reflexivity|repeat constructor].
  - apply Hmade. split; [split; [reflexivity|repeat constructor]|].
    repeat split; first [left; reflexivity | right; reflexivity].
Defined.

(** A shape whose tokens are separated by em spaces (U+2003) splits into
    its three tokens as well. *)
Example em_spaces_separate_tokens :
  split (text "224" ++ [8195%N] ++ text "224" ++ [8195%N] ++ text "3")
  = [text "224"; text "224"; text "3"]
  /\ TensorFlowParameters._input_shape_is_correct
       (Some (text "224" ++ [8195%N] ++ text "224" ++ [8195%N] ++ text "3"))
     = Ok true.
Proof. split; reflexivity. Qed.

(** ** Running the engine *)

Lemma input_tensors_run (input_names : list string) (d : device) (s : state) :
  input_tensors input_names d s
  = (Ok (PList (tensors_from (slices_drawn s) input_names d)),
     {| time_reads := time_reads s;
        slices_drawn := slices_drawn s + List.length input_names;
        trace := trace s ++ repeat Get_slice (List.length input_names) |}).
Proof.
  unfold input_tensors.
  assert (H : forall s,
    for_each
      (fun input_name =>
         (sl <- get_slice ;;
          ret (torch_tensor (PItem sl (PStr input_name)) d))%py)
      input_names s
    = (Ok (tensors_from (slices_drawn s) input_names d),
       {| time_reads := time_reads s;
          slices_drawn := slices_drawn s + List.length input_names;
          trace := trace s ++ repeat Get_slice (List.length input_names) |})).
  { clear s. induction input_names as [|name rest IH]; intros [r k tr]; simpl.
    - unfold ret. simpl. now rewrite Nat.add_0_r, app_nil_r.
    - unfold bind at 1. unfold bind at 1. unfold get_slice at 1, ret at 1.
      simpl. unfold bind at 1. rewrite IH. simpl. unfold ret.
      rewrite <- app_assoc, Nat.add_succ_r. reflexivity. }
  unfold bind. rewrite H. reflexivity.
Qed.

Lemma invocations_app (tr1 tr2 : list event) :
  invocations (tr1 ++ tr2) = invocations tr1 ++ invocations tr2.
Proof. apply filter_app. Qed.

Lemma invocations_slices (n : nat) : invocations (repeat Get_slice n) = [].
Proof. induction n; simpl; auto. Qed.

Lemma added_app (s : state) (tr : list event) (s' : state) :
  trace s' = trace s ++ tr -> added s s' = tr.
Proof.
  unfold added. intros ->.
  rewrite skipn_app, skipn_all, Nat.sub_diag. reflexivity.
Qed.

Create HintDb built.
#[local] Hint Constructors built_from : built.
#[local] Hint Resolve in_eq in_cons : built.

(** C3, as stated, fails: on a feedforward run the engine does not return
    the raw value of the positional model call; it returns the softmax of
    it along dimension 1, moved to the host, exactly as for
    classification. *)
Lemma feedforward_output_is_postprocessed :
  let raw := PCall the_model [torch_tensor (PItem (PSlice 0) (PStr "input")) cpu] [] in
  exists r,
    fst (inference_pytorch sample_env the_model 1 "feedforward" ["input"]
           cpu 0 0 initial) = Ok (Some r)
    /\ output r = to_ (softmax raw 1) (PStr "cpu")
    /\ output r <> raw.
Proof.
  eexists. split; [reflexivity|]. split; [reflexivity|]. discriminate.
Qed.

(** C3, amended: in the single-shot path the feedforward and the
    classification task types are handled by the same branch: the model is
    called once on the unpacked input tensors, and the output is the
    softmax of the returned value along dimension 1, moved to the host. *)
Theorem feedforward_and_classification_softmax :
  forall (E : env) (model : pyval) (task_type : string)
         (input_names : list string) (d : device) (test_duration : Z)
         (fuel : nat) (s : state),
    task_type = "feedforward" \/ task_type = "classification" ->
    let inputs := tensors_from (slices_drawn s) input_names d in
    let ran :=
      inference_pytorch E model 1 task_type input_names d test_duration
        fuel s in
    exists r,
      fst ran = Ok (Some r)
      /\ output r = to_ (softmax (PCall model inputs []) 1) (PStr "cpu")
      /\ invocations (added s (snd ran)) = [Invoke model inputs []].
Proof.
  intros E model task_type input_names d test_duration fuel s Htask
         inputs ran.
  subst ran inputs.
  destruct Htask as [-> | ->];
    unfold inference_pytorch, set_up, single_shot; cbn;
    unfold bind; rewrite input_tensors_run; cbn;
    (eexists; split; [reflexivity|]; split; [reflexivity|]);
    (erewrite added_app;
     [| cbn; rewrite <- !app_assoc; reflexivity]);
    rewrite invocations_app, invocations_slices; reflexivity.
Qed.

(** The amended statement on a feedforward run with one input. *)
Lemma feedforward_and_classification_softmax_witness :
  exists r,
    fst (inference_pytorch sample_env the_model 1 "feedforward" ["input"]
           cpu 0 0 initial) = Ok (Some r)
    /\ output r
       = to_ (softmax (PCall the_model (tensors_from 0 ["input"] cpu) []) 1)
             (PStr "cpu")
    /\ invocations
         (added initial
            (snd (inference_pytorch sample_env the_model 1 "feedforward"
                    ["input"] cpu 0 0 initial)))
       = [Invoke the_model (tensors_from 0 ["input"] cpu) []].
Proof.
  apply (feedforward_and_classification_softmax sample_env the_model
           "feedforward" ["input"] cpu 0 0%nat initial).
  left. reflexivity.
Defined.

Lemma only_slices_repeat (n : nat) : Forall (eq Get_slice) (repeat Get_slice n).
Proof.
  apply Forall_forall. intros e He. symmetry. exact (repeat_spec _ _ _ He).
Qed.

Lemma invocations_only_slices (tr : list event) :
  Forall (eq Get_slice) tr -> invocations tr = [].
Proof.
  induction 1 as [|e tr He _ IH]; simpl; [reflexivity|].
  subst e. exact IH.
Qed.

(** Splits the effects of a single-shot run around its two clock reads;
    the slices drawn before and between are found by trial. *)
Ltac around_the_call :=
  do 4 eexists;
  (exists (@nil event) + exists [Get_slice]);
  (exists (@nil event) + exists [Get_slice]);
  split; [reflexivity|];
  split; [erewrite added_app;
          [| cbn; rewrite <- !app_assoc; reflexivity]; reflexivity|];
  split; [repeat constructor|];
  split; [repeat constructor|];
  split; [reflexivity|];
  split; [unfold runs_model; cbn; auto 10|];
  unfold to_, softmax, call; cbn; eauto 10 with built.

Ltac around_the_positional_call input_names :=
  unfold bind; rewrite input_tensors_run; cbn;
  do 4 eexists;
  exists (repeat Get_slice (List.length input_names)), (@nil event);
  split; [reflexivity|];
  split; [erewrite added_app;
          [| cbn; rewrite <- !app_assoc; reflexivity]; reflexivity|];
  split; [apply only_slices_repeat|];
  split; [constructor|];
  split; [reflexivity|];
  split; [left; reflexivity|];
  unfold to_, softmax, call; cbn; eauto 10 with built.

(** C6: a run with iteration count 1 and one of the task types the
    command line accepts completes; among its effects there is exactly one
    call, the clock is read once before it and once right after it (only
    slices are drawn in between), the latency list holds the single
    difference of the two readings, the call runs the model it was given
    (it calls the model, its [translate_batch], or a generation entry
    point with the model as its [model] or [torch_model] keyword), and the
    output is built from the value that call returned. *)
Theorem single_shot_invokes_once :
  forall (E : env) (model : pyval) (task_type : string)
         (input_names : list string) (d : device) (test_duration : Z)
         (fuel : nat) (s : state),
    In task_type task_choices ->
    let ran :=
      inference_pytorch E model 1 task_type input_names d test_duration
        fuel s in
    exists r callee args kwargs before between,
      fst ran = Ok (Some r)
      /\ added s (snd ran)
         = before ++ Time_read :: between
           ++ [Invoke callee args kwargs; Time_read]
      /\ Forall (eq Get_slice) before
      /\ Forall (eq Get_slice) between
      /\ time_infer r
         = [clock E (S (time_reads s)) - clock E (time_reads s)]
      /\ runs_model model callee kwargs
      /\ built_from (PCall callee args kwargs) (output r).
Proof.
  intros E model task_type input_names d test_duration fuel s Htask ran.
  subst ran. unfold task_choices in Htask. simpl in Htask.
  destruct Htask as [<-|[<-|[<-|[<-|[<-|[<-|[<-|[<-|[<-|[]]]]]]]]]];
    unfold inference_pytorch, set_up, single_shot; cbn.
  - around_the_positional_call input_names.
  - around_the_positional_call input_names.
  - around_the_call.
  - around_the_call.
  - around_the_positional_call input_names.
  - around_the_call.
  - around_the_call.
  - around_the_call.
  - around_the_call.
Qed.

(** The run of the example on a text-generation task. *)
Lemma single_shot_invokes_once_witness :
  exists r callee args kwargs before between,
    fst (inference_pytorch sample_env the_model 1 "text-generation" []
           cpu 0 0 initial) = Ok (Some r)
    /\ added initial
         (snd (inference_pytorch sample_env the_model 1 "text-generation" []
                 cpu 0 0 initial))
       = before ++ Time_read :: between
         ++ [Invoke callee args kwargs; Time_read]
    /\ Forall (eq Get_slice) before
    /\ Forall (eq Get_slice) between
    /\ time_infer r = [clock sample_env 1 - clock sample_env 0]
    /\ runs_model the_model callee kwargs
    /\ built_from (PCall callee args kwargs) (output r).
Proof.
  apply (single_shot_invokes_once sample_env the_model "text-generation" []
           cpu 0 0%nat initial).
  simpl. tauto.
Defined.

(** ** Task types outside the recognized ones *)

Lemma not_a_choice (task_type : string) (l : list string) :
  in_list task_type task_choices = false ->
  forallb (fun x => in_list x task_choices) l = true ->
  in_list task_type l = false.
Proof.
  intros Hout Hl. rewrite forallb_forall in Hl.
  destruct (in_list task_type l) eqn:Hin; [|reflexivity].
  unfold in_list in Hin. apply existsb_exists in Hin.
  destruct Hin as (x & Hx & Heq).
  apply String.eqb_eq in Heq. subst x.
  specialize (Hl task_type Hx). congruence.
Qed.

Ltac no_branch Hout :=
  repeat match goal with
         | |- context [in_list ?t ?l] =>
             rewrite (not_a_choice t l Hout eq_refl)
         end.

(** C2, as stated, fails: a single-shot run on a task type the engine does
    not know completes without any error; it reads the clock twice and
    returns no output. *)
Lemma unknown_task_single_shot_completes :
  in_list "segmentation" task_choices = false
  /\ inference_pytorch sample_env the_model 1 "segmentation" ["input"] cpu
       0 0 initial
     = (Ok (Some {| output := PNone;
                    time_infer := [1];
                    num_tokens := [];
                    audios_lengths := [];
                    audio_sampling_rate := PNone |}),
        {| time_reads := 2; slices_drawn := 0;
           trace := [Time_read; Time_read] |}).
Proof.
  split; reflexivity.
Qed.

(** C2, amended: the engine has no unsupported-task check of its own.  For
    a task type outside the recognized ones, the single-shot path
    completes with output [None] and one latency, drawing no slice and
    running no model; the unsupported-task [ValueError] is raised only by
    [prepare_output], when the result is formatted.  In the looped path
    the first iteration raises a [TypeError] where [infer_slice] unpacks
    the inputs, which are still [None], before the model is run. *)
Theorem unknown_task_passes_the_engine :
  forall (E : env) (model : pyval) (task_type : string)
         (input_names : list string) (d : device) (test_duration : Z)
         (fuel : nat) (s : state),
    in_list task_type task_choices = false ->
    inference_pytorch E model 1 task_type input_names d test_duration fuel s
    = (Ok (Some {| output := PNone;
                   time_infer :=
                     [clock E (S (time_reads s)) - clock E (time_reads s)];
                   num_tokens := [];
                   audios_lengths := [];
                   audio_sampling_rate := PNone |}),
       {| time_reads := S (S (time_reads s));
          slices_drawn := slices_drawn s;
          trace := trace s ++ [Time_read; Time_read] |})
    /\ (forall (result_ : pyval) (name : string) (names : list string),
          prepare_output result_ (Some (name :: names)) task_type
          = Raise (ValueError ("Unsupported task " ++ task_type
                               ++ " to print inference results")%string))
    /\ (forall (num_iterations : Z),
          num_iterations <> 1 ->
          let ran :=
            inference_pytorch E model num_iterations task_type input_names d
              test_duration (S fuel) s in
          fst ran
          = Raise (TypeError
                     "argument after * must be an iterable, not NoneType")
          /\ invocations (added s (snd ran)) = []).
Proof.
  intros E model task_type input_names d test_duration fuel s Hout.
  split; [|split].
  - unfold inference_pytorch, set_up, single_shot.
    no_branch Hout. cbn. now rewrite <- app_assoc.
  - intros result_ name names. unfold prepare_output.
    no_branch Hout. reflexivity.
  - intros num_iterations Hn ran. subst ran.
    assert (Hne : (num_iterations =? 1) = false) by lia.
    unfold inference_pytorch, set_up, loop_inference.
    no_branch Hout. cbn. rewrite Hne. cbn.
    unfold inference_iteration, infer_slice, infer_slice_body, get_exec_time.
    no_branch Hout.
    destruct d; cbn; (split; [reflexivity|]);
      (erewrite added_app; [| cbn; rewrite <- ?app_assoc; reflexivity]);
      reflexivity.
Qed.

(** The amended statement on the task type of the counterexample. *)
Lemma unknown_task_passes_the_engine_witness :
  fst (inference_pytorch sample_env the_model 1 "segmentation" ["input"] cpu
         0 0 initial)
  = Ok (Some {| output := PNone;
                time_infer := [1];
                num_tokens := [];
                audios_lengths := [];
                audio_sampling_rate := PNone |})
  /\ prepare_output PNone (Some ["output"]) "segmentation"
     = Raise (ValueError
                "Unsupported task segmentation to print inference results")
  /\ fst (inference_pytorch sample_env the_model 5 "segmentation" ["input"]
            cpu 0 1 initial)
     = Raise (TypeError "argument after * must be an iterable, not NoneType").
Proof.
  destruct (unknown_task_passes_the_engine sample_env the_model
              "segmentation" ["input"] cpu 0 0%nat initial eq_refl)
    as (Hsingle & Hformat & Hloop).
  split; [|split].
  - now rewrite Hsingle.
  - apply Hformat.
  - apply (Hloop 5). lia.
Defined.

(** ** Keyword arguments of the model call *)

Lemma dict_get_set (k : string) (v : pyval) (dict : kwdict) :
  dict_get k (dict_set k v dict) = Some v.
Proof.
  induction dict as [|[k' v'] dict IH]; simpl.
  - now rewrite String.eqb_refl.
  - destruct (String.eqb k k') eqn:Hk; simpl; rewrite ?String.eqb_refl;
      [reflexivity|]. now rewrite Hk.
Qed.

Lemma kwarg_given_name (name : string) :
  name <> "" -> kwarg_given (Some name) = Some name.
Proof.
  intros Hname. unfold kwarg_given.
  destruct (String.eqb name "") eqn:Heq; [|reflexivity].
  apply String.eqb_eq in Heq. contradiction.
Qed.

Lemma not_ner (task_type : string) :
  task_type <> "named-entity-recognition" ->
  in_list task_type ["named-entity-recognition"] = false.
Proof.
  intros Hother. unfold in_list. simpl. rewrite orb_false_r.
  now apply String.eqb_neq.
Qed.

(** C8, as stated, fails in the single-shot path: a run of the
    named-entity-recognition task with iteration count 1 passes the
    tokenized input ids as the one positional argument of the model call,
    and no keyword argument at all. *)
Lemma ner_single_shot_passes_ids_positionally :
  invocations
    (added initial
       (snd (inference_pytorch sample_env the_model 1
               "named-entity-recognition" [] cpu 0 0 initial)))
  = [Invoke the_model
       [to_ (PItem (call (bert_ner "tokenize")
                         [call (bert_ner "create_tokenizer") []; PSlice 0])
                   (PStr "input_ids"))
            (device_val cpu)]
       []].
Proof. reflexivity. Qed.

(** C8, amended: the two paths pass the tokenized input ids differently.
    In an iteration of the looped path the model is called with the ids
    under the keyword [input_ids] and with no other argument, whatever the
    tokenizer is; [infer_slice] never adds a [tokenizer] keyword for the
    named-entity-recognition task.  In the single-shot path the ids are
    the one positional argument of the call and there is no keyword
    argument.  For every other task type, a keyword-style call of
    [infer_slice] made while a tokenizer is available carries it under the
    keyword [tokenizer]. *)
Theorem tokenizer_keyword :
  forall (E : env) (d : device) (model tokenizer processor : pyval)
         (input_names : list string) (input_size : Z) (s : state),
    invocations
      (added s
         (snd (inference_iteration E d input_names model
                 "named-entity-recognition" tokenizer processor input_size
                 s)))
    = [Invoke model []
         [("input_ids",
           to_ (PItem (call (bert_ner "tokenize")
                            [tokenizer; PSlice (slices_drawn s)])
                      (PStr "input_ids"))
               (device_val d))]]
    /\ (forall (inputs : pyval) (name : string),
          name <> "" ->
          invocations
            (added s
               (snd (infer_slice_body d inputs model (Some name)
                       "named-entity-recognition" tokenizer s)))
          = [Invoke model [] [(name, inputs)]])
    /\ (forall (inputs : pyval) (name task_type : string),
          name <> "" ->
          truthy tokenizer = true ->
          task_type <> "named-entity-recognition" ->
          exists callee kwargs,
            invocations
              (added s
                 (snd (infer_slice_body d inputs model (Some name) task_type
                         tokenizer s)))
            = [Invoke callee [] kwargs]
            /\ kwargs = dict_set "tokenizer" tokenizer [(name, inputs)]
            /\ dict_get "tokenizer" kwargs = Some tokenizer)
    /\ (forall (test_duration : Z) (fuel : nat),
          invocations
            (added s
               (snd (inference_pytorch E model 1 "named-entity-recognition"
                       input_names d test_duration fuel s)))
          = [Invoke model
               [to_ (PItem (call (bert_ner "tokenize")
                                 [call (bert_ner "create_tokenizer") [];
                                  PSlice (slices_drawn s)])
                           (PStr "input_ids"))
                    (device_val d)]
               []]).
Proof.
  intros E d model tokenizer processor input_names input_size s.
  split; [|split; [|split]].
  - unfold inference_iteration, infer_slice, infer_slice_body, get_exec_time.
    destruct d, (truthy tokenizer); cbn;
      (erewrite added_app; [| cbn; rewrite <- ?app_assoc; reflexivity]);
      reflexivity.
  - intros inputs name Hname. unfold infer_slice_body.
    rewrite (kwarg_given_name name Hname).
    destruct d, (truthy tokenizer); cbn;
      (erewrite added_app; [| cbn; rewrite <- ?app_assoc; reflexivity]);
      reflexivity.
  - intros inputs name task_type Hname Htok Hother.
    unfold infer_slice_body.
    rewrite (kwarg_given_name name Hname), Htok, (not_ner _ Hother).
    do 2 eexists. split; [|split; [reflexivity|apply dict_get_set]].
    destruct d; cbn;
      (erewrite added_app; [| cbn; rewrite <- ?app_assoc; reflexivity]);
      reflexivity.
  - intros test_duration fuel.
    unfold inference_pytorch, set_up, single_shot. cbn.
    (erewrite added_app; [| cbn; rewrite <- ?app_assoc; reflexivity]).
    reflexivity.
Qed.

(** A text-generation call with a tokenizer at hand. *)
Lemma tokenizer_keyword_witness :
  exists callee kwargs,
    invocations
      (added initial
         (snd (infer_slice_body cpu (PSlice 0) the_model (Some "inputs")
                 "text-generation" (PObj "tokenizer") initial)))
    = [Invoke callee [] kwargs]
    /\ kwargs = dict_set "tokenizer" (PObj "tokenizer")
                  [("inputs", PSlice 0)]
    /\ dict_get "tokenizer" kwargs = Some (PObj "tokenizer").
Proof.
  destruct (tokenizer_keyword sample_env cpu the_model (PObj "tokenizer")
              PNone [] 0 initial) as (_ & _ & Hother & _).
  apply (Hother (PSlice 0) "inputs" "text-generation");
    [discriminate | reflexivity | discriminate].
Defined.

(** ** The number of samples of the loop *)

Section Loop.

Variable E : env.
Variable inference_func : M iteration.
Hypothesis completes : forall s, is_ok (fst (inference_func s)) = true.

Lemma iteration_result (s : state) :
  exists it s', inference_func s = (Ok it, s').
Proof.
  specialize (completes s).
  destruct (inference_func s) as [[it|e] s']; [eauto|discriminate].
Qed.

Lemma collect_length (acc : loop_results) (it : iteration) :
  List.length (loop_time_infer (collect acc it))
  = S (List.length (loop_time_infer acc)).
Proof.
  unfold collect; simpl. rewrite length_app. simpl. lia.
Qed.

(** Bounded by the count alone, the loop runs the remaining iterations. *)
Lemma loop_counts
    (num_iterations start : Z) (fuel : nat) :
  forall (done : Z) (acc : loop_results) (s : state),
    0 <= done < num_iterations ->
    (Z.to_nat (num_iterations - done) <= fuel)%nat ->
    exists lr s',
      loop_iterations E inference_func num_iterations 0 start fuel done acc s
      = (Ok (Some lr), s')
      /\ List.length (loop_time_infer lr)
         = (List.length (loop_time_infer acc)
            + Z.to_nat (num_iterations - done))%nat.
Proof.
  induction fuel as [|fuel IH]; intros done acc s Hdone Hfuel; [lia|].
  destruct (iteration_result s) as (it & s1 & Hit).
  simpl. unfold bind at 1. rewrite Hit.
  assert (Hpos : (0 <? num_iterations) = true) by lia.
  rewrite Hpos. simpl.
  destruct (num_iterations <=? done + 1) eqn:Hlast.
  - unfold ret. do 2 eexists. split; [reflexivity|].
    rewrite collect_length.
    replace (num_iterations - done) with 1 by lia. simpl. lia.
  - unfold bind at 1, time at 1. simpl.
    destruct (IH (done + 1) (collect acc it)
                 {| time_reads := S (time_reads s1);
                    slices_drawn := slices_drawn s1;
                    trace := trace s1 ++ [Time_read] |})
      as (lr & s' & Hrun & Hlen); [lia|lia|].
    exists lr, s'. split; [exact Hrun|].
    rewrite Hlen, collect_length.
    replace (num_iterations - done) with (Z.succ (num_iterations - (done + 1)))
      by lia.
    rewrite Z2Nat.inj_succ by lia. lia.
Qed.

(** Whenever the loop returns, it has added a sample. *)
Lemma loop_adds_a_sample
    (num_iterations test_duration start : Z) (fuel : nat) :
  forall (done : Z) (acc : loop_results) (s : state)
         (lr : loop_results) (s' : state),
    loop_iterations E inference_func num_iterations test_duration start fuel
      done acc s = (Ok (Some lr), s') ->
    (List.length (loop_time_infer acc) < List.length (loop_time_infer lr))%nat.
Proof.
  induction fuel as [|fuel IH]; intros done acc s lr s' Hrun.
  - discriminate.
  - destruct (iteration_result s) as (it & s1 & Hit).
    simpl in Hrun. unfold bind at 1 in Hrun. rewrite Hit in Hrun.
    destruct ((0 <? num_iterations) && (num_iterations <=? done + 1)).
    + unfold ret in Hrun. injection Hrun as <- _.
      rewrite collect_length. lia.
    + unfold bind at 1, time at 1 in Hrun. simpl in Hrun.
      destruct ((0 <? test_duration)
                && (start + test_duration <=? clock E (time_reads s1))).
      * unfold ret in Hrun. injection Hrun as <- _.
        rewrite collect_length. lia.
      * apply IH in Hrun. rewrite collect_length in Hrun. lia.
Qed.

(** With a positive count and fuel for the remaining iterations, the loop
    returns, whatever the duration: it adds at least one sample and at
    most the remaining count. *)
Lemma loop_returns
    (num_iterations test_duration start : Z) (fuel : nat) :
  forall (done : Z) (acc : loop_results) (s : state),
    0 <= done < num_iterations ->
    (Z.to_nat (num_iterations - done) <= fuel)%nat ->
    exists lr s',
      loop_iterations E inference_func num_iterations test_duration start fuel
        done acc s = (Ok (Some lr), s')
      /\ (List.length (loop_time_infer acc) < List.length (loop_time_infer lr)
          <= List.length (loop_time_infer acc)
             + Z.to_nat (num_iterations - done))%nat.
Proof.
  induction fuel as [|fuel IH]; intros done acc s Hdone Hfuel; [lia|].
  destruct (iteration_result s) as (it & s1 & Hit).
  simpl. unfold bind at 1. rewrite Hit.
  assert (Hpos : (0 <? num_iterations) = true) by lia.
  rewrite Hpos. simpl.
  destruct (num_iterations <=? done + 1) eqn:Hlast.
  - unfold ret. do 2 eexists. split; [reflexivity|].
    rewrite collect_length. lia.
  - unfold bind at 1, time at 1. simpl.
    destruct ((0 <? test_duration)
              && (start + test_duration <=? clock E (time_reads s1))).
    + unfold ret. do 2 eexists. split; [reflexivity|].
      rewrite collect_length. lia.
    + destruct (IH (done + 1) (collect acc it)
                 {| time_reads := S (time_reads s1);
                    slices_drawn := slices_drawn s1;
                    trace := trace s1 ++ [Time_read] |})
        as (lr & s' & Hrun & Hlen); [lia|lia|].
      exists lr, s'. split; [exact Hrun|].
      rewrite collect_length in Hlen.
      replace (num_iterations - done) with (Z.succ (num_iterations - (done + 1)))
        by lia.
      rewrite Z2Nat.inj_succ by lia. lia.
Qed.

Hypothesis keeps_time :
  forall s, (time_reads s <= time_reads (snd (inference_func s)))%nat.

(** With the deadline passed by the end of the first iteration, the loop
    stops after that iteration. *)
Lemma loop_past_deadline
    (num_iterations test_duration start : Z) (fuel : nat)
    (done : Z) (acc : loop_results) (s : state) :
  0 < test_duration ->
  (forall k, (time_reads s <= k)%nat -> start + test_duration <= clock E k) ->
  exists lr s',
    loop_iterations E inference_func num_iterations test_duration start
      (S fuel) done acc s = (Ok (Some lr), s')
    /\ List.length (loop_time_infer lr)
       = S (List.length (loop_time_infer acc)).
Proof.
  intros Hdur Hpast.
  destruct (iteration_result s) as (it & s1 & Hit).
  pose proof (keeps_time s) as Hkeeps. rewrite Hit in Hkeeps.
  simpl in Hkeeps.
  simpl. unfold bind at 1. rewrite Hit.
  destruct ((0 <? num_iterations) && (num_iterations <=? done + 1)).
  - unfold ret. do 2 eexists. split; [reflexivity|apply collect_length].
  - unfold bind at 1, time at 1. simpl.
    assert (H1 : (0 <? test_duration) = true) by lia.
    assert (H2 : (start + test_duration <=? clock E (time_reads s1)) = true).
    { specialize (Hpast (time_reads s1) Hkeeps). lia. }
    rewrite H1, H2. simpl. unfold ret.
    do 2 eexists. split; [reflexivity|apply collect_length].
Qed.

End Loop.

Lemma set_up_completes (E : env) (model : pyval) (task_type : string)
    (s : state) :
  exists L s', set_up E model task_type s = (Ok L, s')
               /\ time_reads s' = time_reads s.
Proof.
  unfold set_up.
  destruct (in_list task_type ["text-generation"; "batch-text-generation"]);
    [cbn; do 2 eexists; split; reflexivity|].
  destruct (in_list task_type ["named-entity-recognition"]);
    [cbn; do 2 eexists; split; reflexivity|].
  destruct (in_list task_type ["speech-to-text"]);
    cbn; do 2 eexists; split; reflexivity.
Qed.

Lemma inference_iteration_completes
    (E : env) (d : device) (input_names : list string) (model : pyval)
    (task_type : string) (tokenizer processor : pyval) (input_size : Z) :
  In task_type looped_tasks ->
  forall s,
    is_ok (fst (inference_iteration E d input_names model task_type tokenizer
                  processor input_size s)) = true.
Proof.
  intros Htask s. unfold looped_tasks in Htask. simpl in Htask.
  destruct Htask as [<-|[<-|[<-|[<-|[<-|[<-|[<-|[<-|[]]]]]]]]];
    unfold inference_iteration, infer_slice, infer_slice_body, get_exec_time;
    cbn;
    try (unfold bind; rewrite input_tensors_run; cbn);
    destruct d, (truthy tokenizer); reflexivity.
Qed.

Lemma inference_iteration_keeps_time
    (E : env) (d : device) (input_names : list string) (model : pyval)
    (task_type : string) (tokenizer processor : pyval) (input_size : Z) :
  In task_type looped_tasks ->
  forall s,
    (time_reads s
     <= time_reads (snd (inference_iteration E d input_names model task_type
                           tokenizer processor input_size s)))%nat.
Proof.
  intros Htask s. unfold looped_tasks in Htask. simpl in Htask.
  destruct Htask as [<-|[<-|[<-|[<-|[<-|[<-|[<-|[<-|[]]]]]]]]];
    unfold inference_iteration, infer_slice, infer_slice_body, get_exec_time;
    cbn;
    try (unfold bind; rewrite input_tensors_run; cbn);
    destruct d, (truthy tokenizer); simpl; lia.
Qed.

Lemma single_shot_one_sample
    (E : env) (model : pyval) (task_type : string)
    (input_names : list string) (d : device) (L : locals) (s : state)
    (r : run) :
  fst (single_shot E model task_type input_names d L s) = Ok r ->
  List.length (time_infer r) = 1%nat.
Proof.
  unfold single_shot.
  unfold bind at 1.
  destruct (_ s) as [[inputs|e] s1]; [|discriminate].
  unfold bind at 1, time at 1. simpl.
  unfold bind at 1.
  match goal with
  | |- context [match ?body ?st with _ => _ end] =>
      destruct (body st) as [[[out toks]|e] s2]
  end; [|discriminate].
  cbn. intros H. injection H as <-. reflexivity.
Qed.

(** C4: the claim does not hold of every run.  The looped path has no
    branch for the task type [yolo_v7], which the command line offers and
    the single-shot path handles: a run with iteration count 5 and
    duration 0 raises a [TypeError] in its first iteration, before any
    call, and returns no sample, while the run with iteration count 1
    completes with one latency.  It is the only task type of the command
    line the looped path lacks.  On the eight task types the looped path
    handles: a run with iteration count 5 and duration 0 returns exactly
    5 latencies; a run with a count above 1 returns, whatever the
    duration, with at least one latency and at most the count; every run
    that returns, returns at least one latency; and a run whose deadline
    has passed by the end of its first iteration returns after that
    iteration, with one latency. *)
Theorem loop_sample_counts :
  forall (E : env) (model : pyval) (input_names : list string) (d : device),
    (forall (fuel : nat) (s : state),
       let ran :=
         inference_pytorch E model 5 "yolo_v7" input_names d 0 (S fuel) s in
       fst ran
       = Raise (TypeError "argument after * must be an iterable, not NoneType")
       /\ invocations (added s (snd ran)) = [])
    /\ (forall (test_duration : Z) (fuel : nat) (s : state),
          exists r,
            fst (inference_pytorch E model 1 "yolo_v7" input_names d
                   test_duration fuel s) = Ok (Some r)
            /\ List.length (time_infer r) = 1%nat)
    /\ (forall (task_type : string),
          In task_type task_choices ->
          task_type = "yolo_v7" \/ In task_type looped_tasks)
    /\ (forall (task_type : string),
          In task_type looped_tasks ->
          (forall (fuel : nat) (s : state),
             (5 <= fuel)%nat ->
             exists r,
               fst (inference_pytorch E model 5 task_type input_names d 0
                      fuel s) = Ok (Some r)
               /\ List.length (time_infer r) = 5%nat)
          /\ (forall (num_iterations test_duration : Z) (fuel : nat)
                     (s : state),
                1 < num_iterations ->
                (Z.to_nat num_iterations <= fuel)%nat ->
                exists r,
                  fst (inference_pytorch E model num_iterations task_type
                         input_names d test_duration fuel s) = Ok (Some r)
                  /\ (1 <= List.length (time_infer r)
                      <= Z.to_nat num_iterations)%nat)
          /\ (forall (num_iterations test_duration : Z) (fuel : nat)
                     (s : state) (r : run),
                fst (inference_pytorch E model num_iterations task_type
                       input_names d test_duration fuel s) = Ok (Some r) ->
                (1 <= List.length (time_infer r))%nat)
          /\ (forall (num_iterations test_duration : Z) (fuel : nat)
                     (s : state),
                num_iterations <> 1 ->
                0 < test_duration ->
                (forall k, (time_reads s < k)%nat ->
                           clock E (time_reads s) + test_duration
                           <= clock E k) ->
                exists r,
                  fst (inference_pytorch E model num_iterations task_type
                         input_names d test_duration (S fuel) s)
                  = Ok (Some r)
                  /\ List.length (time_infer r) = 1%nat)).
Proof.
  intros E model input_names d.
  split; [|split; [|split]].
  - intros fuel s ran. subst ran.
    unfold inference_pytorch, set_up, loop_inference. cbn.
    unfold inference_iteration, infer_slice, infer_slice_body, get_exec_time.
    destruct d; cbn; (split; [reflexivity|]);
      (erewrite added_app; [| cbn; rewrite <- ?app_assoc; reflexivity]);
      reflexivity.
  - intros test_duration fuel s.
    unfold inference_pytorch, set_up, single_shot. cbn.
    unfold bind. rewrite input_tensors_run. cbn.
    eexists. split; reflexivity.
  - intros task_type Htask. unfold task_choices in Htask.
    unfold looped_tasks. simpl in Htask.
    destruct Htask as [<-|[<-|[<-|[<-|[<-|[<-|[<-|[<-|[<-|[]]]]]]]]]];
      simpl; auto 12.
  - intros task_type Htask.
    pose proof (inference_iteration_completes E d input_names model task_type)
      as Hiter.
    pose proof (inference_iteration_keeps_time E d input_names model task_type)
      as Hkeeps.
    split; [|split; [|split]].
    + intros fuel s Hfuel. unfold inference_pytorch.
      destruct (set_up_completes E model task_type s) as (L & s1 & HL & _).
      unfold bind at 1. rewrite HL. simpl (5 =? 1).
      unfold loop_inference. unfold bind at 1. unfold bind at 1, time at 1.
      simpl.
      match goal with
      | |- context [loop_iterations E ?f 5 0 ?start fuel 0 ?acc ?st] =>
          destruct (loop_counts E f (Hiter _ _ _ Htask) 5 start fuel 0 acc st)
            as (lr & s' & Hrun & Hlen); [lia|simpl; lia|]
      end.
      rewrite Hrun. cbn. eexists. split; [reflexivity|]. simpl.
      rewrite Hlen. reflexivity.
    + intros num_iterations test_duration fuel s Hn Hfuel.
      assert (Hne : (num_iterations =? 1) = false) by lia.
      unfold inference_pytorch.
      destruct (set_up_completes E model task_type s) as (L & s1 & HL & _).
      unfold bind at 1. rewrite HL, Hne.
      unfold loop_inference. unfold bind at 1. unfold bind at 1, time at 1.
      cbv beta iota.
      match goal with
      | |- context [loop_iterations E ?f ?n ?dur ?start fuel 0 ?acc ?st] =>
          destruct (loop_returns E f (Hiter _ _ _ Htask) n dur start fuel 0
                      acc st)
            as (lr & s' & Hrun & Hlen); [lia|rewrite Z.sub_0_r; exact Hfuel|]
      end.
      rewrite Hrun. cbn. eexists. split; [reflexivity|].
      simpl in *. rewrite Z.sub_0_r in Hlen. lia.
    + intros num_iterations test_duration fuel s r. unfold inference_pytorch.
      destruct (set_up_completes E model task_type s) as (L & s1 & HL & _).
      unfold bind at 1. rewrite HL.
      destruct (num_iterations =? 1).
      * unfold bind at 1.
        destruct (single_shot E model task_type input_names d L s1)
          as [[r1|e] s2] eqn:Hshot; [|discriminate].
        cbn. intros H. injection H as <-.
        rewrite (single_shot_one_sample E model task_type input_names d L s1
                   r1);
          [lia|now rewrite Hshot].
      * unfold loop_inference. unfold bind at 1. unfold bind at 1, time at 1.
        simpl.
        match goal with
        | |- context [loop_iterations E ?f ?n ?dur ?start fuel 0 ?acc ?st] =>
            destruct (loop_iterations E f n dur start fuel 0 acc st)
              as [[[lr|]|e] s'] eqn:Hrun; try discriminate;
            apply (loop_adds_a_sample E f (Hiter _ _ _ Htask)) in Hrun
        end.
        cbn. intros H. injection H as <-. simpl. lia.
    + intros num_iterations test_duration fuel s Hn Hdur Hpast.
      assert (Hne : (num_iterations =? 1) = false) by lia.
      unfold inference_pytorch.
      destruct (set_up_completes E model task_type s)
        as (L & s1 & HL & Htime).
      unfold bind at 1. rewrite HL, Hne.
      unfold loop_inference. unfold bind at 1. unfold bind at 1, time at 1.
      cbv beta iota.
      match goal with
      | |- context [loop_iterations E ?f ?n ?dur ?start (S fuel) 0 ?acc ?st] =>
          destruct (loop_past_deadline E f (Hiter _ _ _ Htask)
                      (Hkeeps _ _ _ Htask) n dur start fuel 0 acc st Hdur)
            as (lr & s' & Hrun & Hlen);
          [simpl; rewrite Htime; intros k Hk; apply Hpast; lia|]
      end.
      rewrite Hrun. cbn. eexists. split; [reflexivity|]. simpl.
      rewrite Hlen. reflexivity.
Qed.

(** Runs of the classification task in the sample environment: five
    iterations without a time bound; a thousand iterations bounded by a
    duration of one tick, which the first iteration uses up; and three
    iterations bounded by two ticks. *)
Lemma loop_sample_counts_witness :
  (exists r,
     fst (inference_pytorch sample_env the_model 5 "classification"
            ["input"] cpu 0 5 initial) = Ok (Some r)
     /\ List.length (time_infer r) = 5%nat)
  /\ (exists r,
        fst (inference_pytorch sample_env the_model 1000 "classification"
               ["input"] cpu 1 1 initial) = Ok (Some r)
        /\ List.length (time_infer r) = 1%nat)
  /\ (exists r,
        fst (inference_pytorch sample_env the_model 3 "classification"
               ["input"] cpu 2 3 initial) = Ok (Some r)
        /\ (1 <= List.length (time_infer r) <= 3)%nat).
Proof.
  destruct (loop_sample_counts sample_env the_model ["input"] cpu)
    as (_ & _ & _ & Hlooped).
  destruct (Hlooped "classification") as (Hfive & Hreturns & _ & Hdeadline).
  - simpl. tauto.
  - split; [|split].
    + apply Hfive. lia.
    + apply Hdeadline; [lia | lia |].
      intros k Hk. simpl in *. lia.
    + apply Hreturns; [lia | simpl; lia].
Defined.

(** The looped path has no branch for [yolo_v7], which the single-shot
    path handles: the inputs stay [None] and the first iteration raises. *)
Example yolo_v7_has_no_looped_branch :
  fst (inference_pytorch sample_env the_model 5 "yolo_v7" ["input"] cpu 0 5
         initial)
  = Raise (TypeError "argument after * must be an iterable, not NoneType").
Proof. reflexivity. Qed.

(** The loop as modelled agrees with the worked case of spec 8: with an
    iteration count of 1000, a duration of one second and calls of half a
    second, the run stops after two samples. *)
Example half_second_calls_stop_after_two :
  exists r,
    fst (inference_pytorch half_second_env the_model 1000 "classification"
           ["input"] cpu 2 1000 initial) = Ok (Some r)
    /\ time_infer r = [1; 1].
Proof. eexists. split; reflexivity. Qed.

(** [str] of a negative count, as it appears in the error message. *)
Example incorrect_thread_count_message :
  incorrect_thread_count (-3) = ValueError "Incorrect thread count: -3".
Proof. reflexivity. Qed.

(** * Further properties *)

(** ** Splitting and joining strings *)

Lemma append_assoc (a b c : string) :
  ((a ++ b) ++ c = a ++ (b ++ c))%string.
Proof. induction a as [|x a IH]; simpl; [reflexivity|now rewrite IH]. Qed.

Lemma append_empty_r (a : string) : (a ++ "")%string = a.
Proof. induction a as [|x a IH]; simpl; [reflexivity|now rewrite IH]. Qed.

Lemma contains_append (c : ascii) (a b : string) :
  contains c (a ++ b) = contains c a || contains c b.
Proof.
  induction a as [|x a IH]; simpl; [reflexivity|].
  now rewrite IH, orb_assoc.
Qed.

Lemma split_on_not_nil (sep : ascii) (s : string) : split_on sep s <> [].
Proof.
  destruct s as [|c s]; simpl; [discriminate|].
  destruct (Ascii.eqb c sep); [discriminate|].
  destruct (split_on sep s); discriminate.
Qed.

Lemma split_on_whole (sep : ascii) (t : string) :
  contains sep t = false -> split_on sep t = [t].
Proof.
  induction t as [|c t IH]; simpl; [reflexivity|].
  intros H. apply orb_false_iff in H. destruct H as [Hc Ht].
  rewrite Hc, (IH Ht). reflexivity.
Qed.

(** Splitting distributes over a concatenation at a separator. *)
Lemma split_on_at_separator (sep : ascii) (p r : string) :
  split_on sep (p ++ String sep r) = split_on sep p ++ split_on sep r.
Proof.
  induction p as [|c p IH]; simpl.
  - now rewrite Ascii.eqb_refl.
  - destruct (Ascii.eqb c sep); [now rewrite IH|].
    rewrite IH. pose proof (split_on_not_nil sep p) as Hp.
    destruct (split_on sep p) as [|w ws]; [contradiction|reflexivity].
Qed.

Lemma join_split_on (sep : ascii) (s : string) :
  join (String sep "") (split_on sep s) = s.
Proof.
  induction s as [|c s IH]; simpl; [reflexivity|].
  pose proof (split_on_not_nil sep s) as Hs.
  destruct (Ascii.eqb c sep) eqn:Hc.
  - apply Ascii.eqb_eq in Hc. subst c.
    destruct (split_on sep s) as [|w ws]; [contradiction|].
    simpl in *. now rewrite IH.
  - destruct (split_on sep s) as [|w ws]; [contradiction|].
    destruct ws as [|w' ws]; simpl in *; now rewrite <- IH.
Qed.

Lemma drop_last_snoc (u : string) (c : ascii) :
  drop_last (u ++ String c "") = u.
Proof.
  induction u as [|x u IH]; simpl; [reflexivity|].
  rewrite IH. destruct u; reflexivity.
Qed.

Lemma last_append {A : Type} (l1 l2 : list A) (d : A) :
  l2 <> [] -> last (l1 ++ l2) d = last l2 d.
Proof.
  intros Hl2. induction l1 as [|x l1 IH]; simpl; [reflexivity|].
  rewrite <- IH. destruct (l1 ++ l2) eqn:Happ; [|reflexivity].
  apply app_eq_nil in Happ. destruct Happ. contradiction.
Qed.

(** A string that contains the separator splits at its last occurrence. *)
Lemma last_occurrence (sep : ascii) (s : string) :
  contains sep s = true ->
  exists p r, s = (p ++ String sep r)%string /\ contains sep r = false.
Proof.
  induction s as [|c s IH]; simpl; [discriminate|].
  intros H. destruct (contains sep s) eqn:Hs.
  - destruct (IH eq_refl) as (p & r & -> & Hr).
    exists (String c p), r. split; [reflexivity|exact Hr].
  - rewrite orb_false_r in H. apply Ascii.eqb_eq in H. subst c.
    exists "", s. split; [reflexivity|exact Hs].
Qed.

(** ** Loading a model from a file *)

(** X1: [load_model_from_file] accepts a path exactly when the text after
    its last dot is [pt]: the path is [pt] itself or ends with [.pt]
    (case-sensitively).  Every other path raises a [ValueError], and an
    accepted path is handed unchanged to [torch.load]. *)
Theorem load_model_from_file_extension :
  forall (model_path : string),
    (is_ok (load_model_from_file model_path) = true
     <-> model_path = "pt"
         \/ exists stem, model_path = (stem ++ ".pt")%string)
    /\ (is_ok (load_model_from_file model_path) = false
        -> is_ValueError (load_model_from_file model_path) = true)
    /\ (is_ok (load_model_from_file model_path) = true
        -> load_model_from_file model_path
           = Ok (call (PObj "torch.load") [PStr model_path])).
Proof.
  intros model_path.
  assert (Hlast :
    last (split_on "." model_path) "" = "pt"
    <-> model_path = "pt" \/ exists stem, model_path = (stem ++ ".pt")%string).
  { destruct (contains "." model_path) eqn:Hdot.
    - destruct (last_occurrence "." model_path Hdot) as (p & r & -> & Hr).
      rewrite split_on_at_separator, (split_on_whole _ _ Hr).
      rewrite last_append by discriminate. simpl. split.
      + intros ->. right. now exists p.
      + intros [Hpt | (stem & Hstem)].
        * rewrite Hpt in Hdot. discriminate.
        * assert (Hsplit :
            split_on "." (p ++ String "." r)
            = split_on "." (stem ++ ".pt")%string) by now rewrite Hstem.
          rewrite !split_on_at_separator in Hsplit.
          rewrite (split_on_whole _ _ Hr) in Hsplit.
          apply (f_equal (fun l => last l "")) in Hsplit.
          rewrite !last_append in Hsplit by discriminate.
          exact Hsplit.
    - rewrite (split_on_whole _ _ Hdot). simpl. split.
      + intros ->. now left.
      + intros [Hpt | (stem & Hstem)]; [exact Hpt|].
        rewrite Hstem, contains_append in Hdot. simpl in Hdot.
        rewrite orb_true_r in Hdot. discriminate. }
  unfold load_model_from_file, in_list. simpl existsb.
  rewrite orb_false_r.
  destruct (String.eqb (last (split_on "." model_path) "") "pt") eqn:Heq;
    simpl.
  - apply String.eqb_eq in Heq. repeat split; auto; try discriminate.
    intros _. now apply Hlast.
  - apply String.eqb_neq in Heq. repeat split; auto; try discriminate.
    intros H. apply Hlast in H. contradiction.
Qed.

(** ** The custom model links *)

Lemma links_set_fresh (k v : string) (links : list (string * string)) :
  ~ In k (map fst links) -> links_set k v links = links ++ [(k, v)].
Proof.
  induction links as [|[k' v'] links IH]; simpl; [reflexivity|].
  intros Hfresh. destruct (String.eqb k k') eqn:Hk.
  - apply String.eqb_eq in Hk. subst k'. tauto.
  - rewrite IH; tauto.
Qed.

Lemma custom_model_link_of (name url : string) (c : ascii) :
  contains "[" name = false ->
  custom_model_link (name ++ "[" ++ url ++ String c "") = (name, url).
Proof.
  intros Hname. unfold custom_model_link.
  change (name ++ "[" ++ url ++ String c "")%string
    with (name ++ String "[" (url ++ String c ""))%string.
  rewrite split_on_at_separator, (split_on_whole _ _ Hname). simpl.
  rewrite join_split_on, drop_last_snoc. reflexivity.
Qed.

(** X2: one item of [--custom_models_links].  The text before the first
    opening bracket is the model name and the rest, without its last
    character, is the link: [name[url]] gives [(name, url)], also when the
    link itself contains brackets, and whatever the last character is, as
    the closing bracket is not checked.  An item without an opening
    bracket is taken as a model name with an empty link. *)
Theorem custom_model_link_item :
  forall (name url : string) (last_char : ascii),
    contains "[" name = false ->
    custom_model_link (name ++ "[" ++ url ++ "]") = (name, url)
    /\ custom_model_link (name ++ "[" ++ url ++ String last_char "")
       = (name, url)
    /\ custom_model_link name = (name, "").
Proof.
  intros name url last_char Hname. split; [|split].
  - exact (custom_model_link_of name url "]" Hname).
  - exact (custom_model_link_of name url last_char Hname).
  - unfold custom_model_link. now rewrite (split_on_whole _ _ Hname).
Qed.

(** A link that contains brackets. *)
Lemma custom_model_link_item_witness :
  custom_model_link "resnet[http://host/a[1].pt]"
  = ("resnet", "http://host/a[1].pt")
  /\ custom_model_link "resnet[http://host/a[1].pth"
     = ("resnet", "http://host/a[1].pt")
  /\ custom_model_link "resnet" = ("resnet", "").
Proof.
  apply (custom_model_link_item "resnet" "http://host/a[1].pt" "h"
           eq_refl).
Defined.

Lemma split_on_join (sep : ascii) (items : list string) :
  items <> [] ->
  Forall (fun item => contains sep item = false) items ->
  split_on sep (join (String sep "") items) = items.
Proof.
  intros Hne Hitems. induction Hitems as [|w rest Hw Hrest IH];
    [contradiction|].
  destruct rest as [|w' rest].
  - simpl. exact (split_on_whole _ _ Hw).
  - change (join (String sep "") (w :: w' :: rest))
      with (w ++ String sep (join (String sep "") (w' :: rest)))%string.
    rewrite split_on_at_separator, (split_on_whole _ _ Hw), IH by discriminate.
    reflexivity.
Qed.

Lemma link_item_parsed (entry : string * string) :
  contains "[" (fst entry) = false ->
  custom_model_link (link_item entry) = entry.
Proof.
  intros Hname. destruct entry as [name url]. unfold link_item. simpl in *.
  exact (custom_model_link_of name url "]" Hname).
Qed.

Lemma links_fold_fresh (entries acc : list (string * string)) :
  Forall (fun entry => contains "[" (fst entry) = false) entries ->
  NoDup (map fst (acc ++ entries)) ->
  fold_left
    (fun custom_models_dict item =>
       let '(model, url) := custom_model_link item in
       links_set model url custom_models_dict)
    (map link_item entries) acc
  = acc ++ entries.
Proof.
  revert acc. induction entries as [|entry entries IH]; intros acc Hnames Hdup.
  - simpl. now rewrite app_nil_r.
  - inversion Hnames as [|? ? Hname Hrest]; subst.
    cbn [map fold_left]. rewrite (link_item_parsed entry Hname).
    destruct entry as [name url].
    rewrite links_set_fresh.
    + rewrite IH; [now rewrite <- app_assoc | exact Hrest |].
      now rewrite <- app_assoc.
    + rewrite map_app in Hdup. simpl in Hdup.
      apply NoDup_remove_2 in Hdup. intros Hin. apply Hdup.
      apply in_or_app. now left.
Qed.

(** X3: the option text [name_1[url_1],name_2[url_2],...] written for a
    non-empty list of distinct model names is read back by
    [custom_models_dict] as that list, in order, provided no name contains
    a bracket or a comma and no link contains a comma (links may contain
    brackets). *)
Theorem custom_models_dict_round_trip :
  forall (entries : list (string * string)),
    entries <> [] ->
    NoDup (map fst entries) ->
    Forall (fun entry => contains "[" (fst entry) = false
                         /\ contains "," (fst entry) = false
                         /\ contains "," (snd entry) = false) entries ->
    custom_models_dict (Some (links_text entries)) = entries.
Proof.
  intros entries Hne Hdup Hwell.
  assert (Hcommas :
    Forall (fun item => contains "," item = false) (map link_item entries)).
  { apply Forall_map. eapply Forall_impl; [|exact Hwell].
    intros [name url] (_ & Hn & Hu). unfold link_item.
    cbn [fst snd] in *. rewrite !contains_append, Hn, Hu. reflexivity. }
  assert (Hbrackets :
    Forall (fun entry => contains "[" (fst entry) = false) entries).
  { eapply Forall_impl; [|exact Hwell]. intros entry H. apply H. }
  assert (Htext : String.eqb (links_text entries) "" = false).
  { apply String.eqb_neq. intros Hempty.
    assert (Hc : contains "[" (links_text entries) = true).
    { unfold links_text. destruct entries as [|[name url] rest];
        [contradiction|].
      destruct rest as [|entry rest]; simpl;
        unfold link_item; simpl;
        rewrite !contains_append; simpl;
        now rewrite orb_true_r. }
    rewrite Hempty in Hc. discriminate. }
  unfold custom_models_dict. rewrite Htext.
  unfold links_text.
  rewrite split_on_join; [| now destruct entries | exact Hcommas].
  exact (links_fold_fresh entries [] Hbrackets Hdup).
Qed.

(** Two models, the link of the second with brackets in it. *)
Lemma custom_models_dict_round_trip_witness :
  custom_models_dict (Some "resnet[http://host/a.pt],bert[file:///b[2].pt]")
  = [("resnet", "http://host/a.pt"); ("bert", "file:///b[2].pt")].
Proof.
  apply (custom_models_dict_round_trip
           [("resnet", "http://host/a.pt"); ("bert", "file:///b[2].pt")]).
  - discriminate.
  - repeat constructor; simpl; intuition discriminate.
  - repeat constructor.
Defined.

Lemma links_set_keys (k v : string) (links : list (string * string)) :
  NoDup (map fst links) ->
  NoDup (map fst (links_set k v links))
  /\ (forall k', In k' (map fst (links_set k v links))
                 <-> k' = k \/ In k' (map fst links)).
Proof.
  induction links as [|[k0 v0] links IH]; simpl; intros Hdup.
  - split; [repeat constructor; simpl; tauto|]. intros k'. intuition.
  - inversion Hdup as [|? ? Hfresh Hrest]; subst.
    destruct (String.eqb k k0) eqn:Hk; simpl.
    + apply String.eqb_eq in Hk. subst k0.
      split; [now constructor|]. intros k'. intuition.
    + destruct (IH Hrest) as [IHdup IHin]. split.
      * constructor; [|exact IHdup].
        rewrite IHin. intros [Heq | Hin]; [|contradiction].
        apply String.eqb_neq in Hk. congruence.
      * intros k'. rewrite IHin. intuition.
Qed.

Lemma links_set_lookup (k v : string) (links : list (string * string)) :
  In (k, v) (links_set k v links).
Proof.
  induction links as [|[k0 v0] links IH]; simpl; [now left|].
  destruct (String.eqb k k0); simpl; [now left|now right].
Qed.

(** X4: whatever the option text is, the dictionary built from it has no
    model name twice; without the option, or with an empty text, it is
    empty; and text with the same model twice keeps the later link. *)
Theorem custom_models_dict_keys :
  forall (custom_models_links : option string),
    NoDup (map fst (custom_models_dict custom_models_links))
    /\ custom_models_dict None = []
    /\ custom_models_dict (Some "") = []
    /\ (forall (name url1 url2 : string),
          contains "[" name = false ->
          contains "," name = false ->
          contains "," url1 = false ->
          contains "," url2 = false ->
          custom_models_dict
            (Some (links_text [(name, url1); (name, url2)]))
          = [(name, url2)]).
Proof.
  intros custom_models_links. split; [|split; [reflexivity|split;
                                                [reflexivity|]]].
  - unfold custom_models_dict. destruct custom_models_links as [links|];
      [|constructor].
    destruct (String.eqb links ""); [constructor|].
    generalize (split_on "," links) as items.
    assert (H : forall items acc,
      NoDup (map fst acc) ->
      NoDup (map fst
               (fold_left
                  (fun custom_models_dict item =>
                     let '(model, url) := custom_model_link item in
                     links_set model url custom_models_dict)
                  items acc))).
    { induction items as [|item items IH]; intros acc Hacc; simpl;
        [exact Hacc|].
      apply IH. destruct (custom_model_link item) as [model url].
      now apply links_set_keys. }
    intros items. apply H. constructor.
  - intros name url1 url2 Hb Hc Hu1 Hu2.
    assert (Htext :
      String.eqb (links_text [(name, url1); (name, url2)]) "" = false).
    { apply String.eqb_neq. intros Hempty.
      apply (f_equal (contains "[")) in Hempty. revert Hempty.
      unfold links_text, link_item. simpl.
      rewrite !contains_append. simpl. rewrite orb_true_r. discriminate. }
    unfold custom_models_dict. rewrite Htext. unfold links_text.
    rewrite split_on_join; [|discriminate|].
    + cbn [map fold_left]. rewrite !link_item_parsed by exact Hb.
      cbn [links_set]. now rewrite String.eqb_refl.
    + cbn [map]. repeat apply Forall_cons; [| |apply Forall_nil];
        unfold link_item; cbn [fst snd];
        rewrite !contains_append, Hc, ?Hu1, ?Hu2; reflexivity.
Qed.

(** The same model given twice. *)
Lemma custom_models_dict_keys_witness :
  custom_models_dict (Some (links_text [("bert", "a"); ("bert", "b")]))
  = [("bert", "b")].
Proof.
  destruct (custom_models_dict_keys None) as (_ & _ & _ & Hlater).
  apply Hlater; reflexivity.
Defined.

(** ** Formatting the output *)

Lemma choice_cases (task_type : string) :
  in_list task_type task_choices = true -> In task_type task_choices.
Proof.
  unfold in_list. intros H. apply existsb_exists in H.
  destruct H as (x & Hx & Heq). apply String.eqb_eq in Heq. now subst x.
Qed.

(** X5: given at least one output name, [prepare_output] raises the
    unsupported-task [ValueError] exactly for the task types outside the
    choices of [--task].  For feedforward and the five pass-through task
    types it completes whatever the result is; for classification,
    text-to-image and named-entity recognition it reads the result and
    raises when the result is [None]; and for each of the nine task types
    it completes on the output that a single-shot run of that task type
    returned. *)
Theorem prepare_output_accepts_the_choices :
  forall (result_ : pyval) (name : string) (names : list string)
         (task_type : string),
    (prepare_output result_ (Some (name :: names)) task_type
     = Raise (ValueError ("Unsupported task " ++ task_type
                          ++ " to print inference results")%string)
     <-> in_list task_type task_choices = false)
    /\ (In task_type ["feedforward"; "text-generation";
                      "batch-text-generation"; "yolo_v7"; "text-translation";
                      "speech-to-text"] ->
        is_ok (prepare_output result_ (Some (name :: names)) task_type) = true)
    /\ (In task_type ["classification"; "text-to-image";
                      "named-entity-recognition"] ->
        is_ok (prepare_output PNone (Some (name :: names)) task_type) = false
        /\ is_ValueError
             (prepare_output PNone (Some (name :: names)) task_type) = false)
    /\ (forall (E : env) (model : pyval) (input_names : list string)
               (d : device) (test_duration : Z) (fuel : nat) (s : state)
               (r : run),
          In task_type task_choices ->
          fst (inference_pytorch E model 1 task_type input_names d
                 test_duration fuel s) = Ok (Some r) ->
          is_ok (prepare_output (output r) (Some (name :: names)) task_type)
          = true).
Proof.
  intros result_ name names task_type. split; [|split; [|split]].
  - split.
    + intros Hraise.
      destruct (in_list task_type task_choices) eqn:Hin; [|reflexivity].
      exfalso. apply choice_cases in Hin.
      unfold task_choices in Hin. simpl in Hin.
      destruct Hin as [<-|[<-|[<-|[<-|[<-|[<-|[<-|[<-|[<-|[]]]]]]]]]];
        cbn in Hraise; try discriminate;
        destruct result_ as [| | | |items|items| | | | | |];
        try discriminate;
        try (destruct items as [|a [|b [|c rest]]]; discriminate).
      destruct s as [|a [|b [|c rest]]]; discriminate.
    + intros Hout. unfold prepare_output. no_branch Hout. reflexivity.
  - intros Htask. simpl in Htask.
    destruct Htask as [<-|[<-|[<-|[<-|[<-|[<-|[]]]]]]]; reflexivity.
  - intros Htask. simpl in Htask.
    destruct Htask as [<-|[<-|[<-|[]]]]; split; reflexivity.
  - intros E model input_names d test_duration fuel s r Htask Hrun.
    unfold task_choices in Htask. simpl in Htask.
    destruct Htask as [<-|[<-|[<-|[<-|[<-|[<-|[<-|[<-|[<-|[]]]]]]]]]];
      unfold inference_pytorch, set_up, single_shot in Hrun; cbn in Hrun;
      try (unfold bind in Hrun; rewrite input_tensors_run in Hrun;
           cbn in Hrun);
      injection Hrun as <-; reflexivity.
Qed.

(** The output of a classification run is formatted, a result of [None]
    is not. *)
Lemma prepare_output_accepts_the_choices_witness :
  is_ok (prepare_output PNone (Some ["output"]) "classification") = false
  /\ is_ok (prepare_output
              (to_ (softmax (PCall the_model (tensors_from 0 ["input"] cpu) [])
                      1) (PStr "cpu"))
              (Some ["output"]) "classification") = true.
Proof.
  destruct (prepare_output_accepts_the_choices PNone "output" []
              "classification") as (_ & _ & Hnone & Hrun).
  split.
  - apply Hnone. simpl. tauto.
  - apply (Hrun sample_env the_model ["input"] cpu 0 0%nat initial
             {| output :=
                  to_ (softmax
                         (PCall the_model (tensors_from 0 ["input"] cpu) [])
                         1) (PStr "cpu");
                time_infer := [1]; num_tokens := [];
                audios_lengths := []; audio_sampling_rate := PNone |}).
    + simpl. tauto.
    + reflexivity.
Defined.

(** X6: [prepare_output] looks at the first output name only: further
    names never change its result, for any task type.  For the five
    pass-through task types the result comes back unchanged, and for
    feedforward it is dropped: the formatted output is the same empty
    dictionary whatever the result was. *)
Theorem prepare_output_uses_first_name :
  forall (result_ other : pyval) (name : string) (names : list string)
         (task_type : string),
    prepare_output result_ (Some (name :: names)) task_type
    = prepare_output result_ (Some [name]) task_type
    /\ (In task_type ["text-generation"; "batch-text-generation"; "yolo_v7";
                      "text-translation"; "speech-to-text"] ->
        prepare_output result_ (Some (name :: names)) task_type = Ok result_)
    /\ prepare_output result_ (Some (name :: names)) "feedforward"
       = prepare_output other (Some (name :: names)) "feedforward".
Proof.
  intros result_ other name names task_type.
  split; [reflexivity|split; [|reflexivity]].
  intros Htask. simpl in Htask.
  destruct Htask as [<-|[<-|[<-|[<-|[<-|[]]]]]]; reflexivity.
Qed.

(** The detection result passes through. *)
Lemma prepare_output_uses_first_name_witness :
  prepare_output (PObj "boxes") (Some ["output"; "extra"]) "yolo_v7"
  = Ok (PObj "boxes").
Proof.
  apply (prepare_output_uses_first_name (PObj "boxes") PNone "output"
           ["extra"] "yolo_v7").
  simpl. tauto.
Defined.

(** ** Thread settings, continued *)

(** X7: whatever its arguments are, [set_thread_num] only ever applies a
    thread setting with a positive count, and only the count it was given
    for that setting; it reads no clock and draws no slice.  A count that
    is [None] or 0 is skipped without validation: with both counts absent
    or 0 nothing happens at all. *)
Theorem set_thread_num_applies_positive_counts :
  forall (num_inter_threads num_intra_threads : option Z) (s : state),
    (exists applied,
       trace (snd (set_thread_num num_inter_threads num_intra_threads s))
       = trace s ++ applied
       /\ Forall
            (fun e =>
               match e with
               | Set_num_interop_threads n =>
                   num_inter_threads = Some n /\ 0 < n
               | Set_num_threads n => num_intra_threads = Some n /\ 0 < n
               | _ => False
               end)
            applied)
    /\ time_reads (snd (set_thread_num num_inter_threads num_intra_threads s))
       = time_reads s
    /\ slices_drawn
         (snd (set_thread_num num_inter_threads num_intra_threads s))
       = slices_drawn s
    /\ ((num_inter_threads = None \/ num_inter_threads = Some 0) ->
        (num_intra_threads = None \/ num_intra_threads = Some 0) ->
        set_thread_num num_inter_threads num_intra_threads s = (Ok tt, s)).
Proof.
  intros num_inter_threads num_intra_threads s.
  destruct num_inter_threads as [k|], num_intra_threads as [n|];
    thread_cases;
    (split; [|split; [reflexivity|split; [reflexivity|]]]);
    try (intros [Hi|Hi] [Ha|Ha]; try discriminate;
         try (injection Hi as ->); try (injection Ha as ->);
         try discriminate; destruct s; reflexivity);
    try (exists []; rewrite app_nil_r; split; [reflexivity|constructor]);
    try (eexists; rewrite <- ?app_assoc; split; [reflexivity|];
         repeat constructor; lia).
Qed.

(** Both counts absent: nothing happens. *)
Lemma set_thread_num_applies_positive_counts_witness :
  set_thread_num None (Some 0) initial = (Ok tt, initial).
Proof.
  destruct (set_thread_num_applies_positive_counts None (Some 0) initial)
    as (_ & _ & _ & Hnothing).
  apply Hnothing; [now left|now right].
Defined.

(** ** The device and the inference call *)

Lemma unpack_cases (inputs : pyval) (s : state) :
  (exists args, unpack inputs s = (Ok args, s))
  \/ (exists e, unpack inputs s = (Raise e, s)).
Proof.
  destruct inputs; simpl; unfold ret, raise; eauto.
Qed.

(** X8: [get_device_to_infer] accepts the names [CPU] and [NVIDIA_GPU]
    only (case-sensitively).  On the device it returns, a call of
    [infer_slice] that completes has made exactly one call, of
    [model.translate_batch] for text translation and of the model itself
    otherwise, followed by a CUDA synchronization exactly when the name
    was [NVIDIA_GPU].  When no keyword name is given and the inputs are
    [None] or an integer, they cannot be unpacked into positional
    arguments: the [TypeError] is raised before anything is called or
    synchronized. *)
Theorem device_and_inference_call :
  forall (device_name : string),
    (is_ok (get_device_to_infer device_name) = true
     <-> device_name = "CPU" \/ device_name = "NVIDIA_GPU")
    /\ (forall (d : device) (inputs model tokenizer : pyval)
               (input_kwarg_name : option string) (task_type : string)
               (s : state),
          get_device_to_infer device_name = Ok d ->
          let ran :=
            infer_slice_body d inputs model input_kwarg_name task_type
              tokenizer s in
          (forall res,
             fst ran = Ok res ->
             exists args kwargs,
               added s (snd ran)
               = Invoke (if in_list task_type ["text-translation"]
                         then PAttr model "translate_batch" else model)
                        args kwargs
                 :: (if String.eqb device_name "NVIDIA_GPU"
                     then [Cuda_synchronize] else []))
          /\ (kwarg_given input_kwarg_name = None ->
              inputs = PNone \/ (exists n, inputs = PInt n) ->
              exists msg, ran = (Raise (TypeError msg), s))).
Proof.
  intros device_name. split.
  - unfold get_device_to_infer.
    destruct (String.eqb device_name "CPU") eqn:Hcpu.
    + apply String.eqb_eq in Hcpu. simpl. tauto.
    + destruct (String.eqb device_name "NVIDIA_GPU") eqn:Hgpu; simpl.
      * apply String.eqb_eq in Hgpu. tauto.
      * apply String.eqb_neq in Hcpu, Hgpu.
        split; [discriminate|]. intros [H|H]; contradiction.
  - intros d inputs model tokenizer input_kwarg_name task_type s Hdev ran.
    assert (Hsync :
      String.eqb (device_type d) "cuda" = String.eqb device_name "NVIDIA_GPU").
    { unfold get_device_to_infer in Hdev.
      destruct (String.eqb device_name "CPU") eqn:Hcpu.
      - injection Hdev as <-. apply String.eqb_eq in Hcpu. now subst.
      - destruct (String.eqb device_name "NVIDIA_GPU"); [|discriminate].
        now injection Hdev as <-. }
    subst ran. unfold infer_slice_body. rewrite Hsync.
    destruct (kwarg_given input_kwarg_name) as [name|].
    + destruct (String.eqb device_name "NVIDIA_GPU"); cbn; split;
        try discriminate;
        intros res _; do 2 eexists;
        (erewrite added_app; [|cbn; rewrite <- ?app_assoc; reflexivity]);
        reflexivity.
    + split.
      * unfold bind.
        destruct (unpack_cases inputs s) as [(args & ->)|(e & ->)].
        -- destruct (String.eqb device_name "NVIDIA_GPU"); cbn;
             intros res _; do 2 eexists;
             (erewrite added_app; [|cbn; rewrite <- ?app_assoc; reflexivity]);
             reflexivity.
        -- cbn. discriminate.
      * intros _ [->|(n & ->)]; cbn; eexists; reflexivity.
Qed.

(** A classification call on the GPU, with a list of inputs and with
    inputs that are [None]. *)
Lemma device_and_inference_call_witness :
  (exists args kwargs,
     added initial
       (snd (infer_slice_body cuda (PList [PSlice 0]) the_model None
               "classification" PNone initial))
     = [Invoke the_model args kwargs; Cuda_synchronize])
  /\ (exists msg,
        infer_slice_body cuda PNone the_model None "classification" PNone
          initial
        = (Raise (TypeError msg), initial)).
Proof.
  destruct (device_and_inference_call "NVIDIA_GPU") as [_ Hcall].
  split.
  - destruct (Hcall cuda (PList [PSlice 0]) the_model PNone None
                "classification" initial eq_refl) as [Hok _].
    exact (Hok _ eq_refl).
  - destruct (Hcall cuda PNone the_model PNone None
                "classification" initial eq_refl) as [_ Hraise].
    apply Hraise; [reflexivity|left; reflexivity].
Defined.

(** ** Compiling the model *)

Ltac compile_cases T model d model_type precision compile_backend
                   tensor_rt_dtype :=
  unfold compile_model;
  destruct (String.eqb_spec model_type "baseline") as [Hbase|Hbase];
  [|destruct (String.eqb_spec model_type "scripted") as [Hscr|Hscr]];
  destruct (given_string compile_backend) as [backend|] eqn:Hbackend;
  destruct (matches_torch_1 (torch_version T)) eqn:Hver;
  destruct tensor_rt_dtype as [dtype|];
  destruct (gpu_available T) eqn:Hgpu;
  destruct (tensorrt_imported T) eqn:Htrt;
  cbn.

(** X9: [compile_model] completes exactly when the model type is
    [baseline], or [scripted] without a compile backend; a compile backend,
    if given, meets a torch version that does not look like 1.x; and a
    TensorRT precision, if given, meets an available GPU and an imported
    [torch_tensorrt].  When it fails it raises a [ValueError], except that
    a TensorRT precision on a host with GPU but without [torch_tensorrt]
    ends in a [NameError]. *)
Theorem compile_model_completes_iff :
  forall (T : torch_env) (model : pyval) (d : device) (model_type : string)
         (shapes : kwdict) (input_type : option string)
         (tensor_rt_dtype : option torch_dtype) (precision : option string)
         (compile_backend : option string)
         (custom_compile_func custom_trace_func : option pyval),
    let ran :=
      compile_model T model d model_type shapes input_type tensor_rt_dtype
        precision compile_backend custom_compile_func custom_trace_func in
    (is_ok (fst ran) = true
     <-> (model_type = "baseline"
          \/ (model_type = "scripted" /\ given_string compile_backend = None))
         /\ (given_string compile_backend = None
             \/ matches_torch_1 (torch_version T) = false)
         /\ (tensor_rt_dtype = None
             \/ (gpu_available T = true /\ tensorrt_imported T = true)))
    /\ (is_ok (fst ran) = false ->
        is_ValueError (fst ran) = true
        \/ (fst ran = Raise (NameError "name 'torch_tensorrt' is not defined")
            /\ tensor_rt_dtype <> None
            /\ gpu_available T = true
            /\ tensorrt_imported T = false)).
Proof.
  intros T model d model_type shapes input_type tensor_rt_dtype precision
         compile_backend custom_compile_func custom_trace_func ran.
  subst ran.
  compile_cases T model d model_type precision compile_backend
                tensor_rt_dtype;
    destruct custom_compile_func, custom_trace_func; cbn;
    (split; [split; [try discriminate; intros _|
                     intros (Htype & Hback & Hrt)]
            | try discriminate; intros _;
              first [left; reflexivity
                    |right; repeat split; try reflexivity; discriminate]]);
    try reflexivity;
    try (repeat split; auto; fail);
    try (destruct Htype as [?|[? ?]]; congruence);
    try (destruct Hback; congruence);
    try (destruct Hrt as [?|[? ?]]; congruence);
    try (split; [right; split; auto|split; auto]).
Qed.

Ltac ops_cases T precision custom_compile_func tensor_rt_dtype :=
  try (destruct (matches_torch_1 (torch_version T)) eqn:Hver;
       [|destruct custom_compile_func as [ccf|]]);
  cbn [negb];
  (destruct tensor_rt_dtype as [[| |]|];
   [destruct (gpu_available T) eqn:Hgpu
   |destruct (gpu_available T) eqn:Hgpu
   |destruct (gpu_available T) eqn:Hgpu|]);
  destruct (tensorrt_imported T) eqn:Htrt;
  (destruct precision as [prec|];
   [destruct (String.eqb_spec prec "FP16") as [Hprec|Hprec]|]);
  cbn [andb dtype_is_half snd fst app];
  repeat match goal with
         | |- context [is_nn_module T ?m] =>
             destruct (is_nn_module T m) eqn:?
         end;
  cbn [andb dtype_is_half snd fst app].

Ltac ops_goal :=
  split;
  [repeat (apply Forall_cons || apply Forall_nil);
   subst; try reflexivity; try assumption;
   (split; [assumption|first [left; reflexivity|right; reflexivity]])
  |split; [split; [discriminate|intros H; exfalso; apply H; tauto]
          |intros _; eexists; split;
           [reflexivity
           |repeat (apply Forall_cons || apply Forall_nil); exact I]]].

Ltac ops_rejected :=
  cbn; split; [constructor|split];
  [split; [intros _ [H|[H H']]; congruence|reflexivity]
  |intros H; contradiction].

(** X10: the in-place operations of [compile_model].  [half] and [eval]
    are only applied to instances of [torch.nn.Module], and [half] only
    when the precision is [FP16] or the TensorRT precision is half.  When
    the model type is rejected, or a scripted model meets a compile
    backend, nothing at all has been applied to the model; in every other
    case, also when a later step raises, the model (scripted first, if the
    type says so) has been moved to the device first, and exactly once. *)
Theorem compile_model_operations :
  forall (T : torch_env) (model : pyval) (d : device) (model_type : string)
         (shapes : kwdict) (input_type : option string)
         (tensor_rt_dtype : option torch_dtype) (precision : option string)
         (compile_backend : option string)
         (custom_compile_func custom_trace_func : option pyval),
    let ops :=
      snd (compile_model T model d model_type shapes input_type
             tensor_rt_dtype precision compile_backend custom_compile_func
             custom_trace_func) in
    Forall
      (fun op =>
         match op with
         | Model_to m d' => d' = d
         | Model_half m =>
             is_nn_module T m = true
             /\ (precision = Some "FP16" \/ tensor_rt_dtype = Some torch_half)
         | Model_eval m => is_nn_module T m = true
         end)
      ops
    /\ (ops = []
        <-> ~ (model_type = "baseline"
               \/ (model_type = "scripted"
                   /\ given_string compile_backend = None)))
    /\ (ops <> [] ->
        exists rest,
          ops
          = Model_to (if String.eqb model_type "baseline" then model
                      else call (PObj "torch.jit.script") [model]) d
            :: rest
          /\ Forall (fun op => match op with
                               | Model_to _ _ => False
                               | _ => True
                               end) rest).
Proof.
  intros T model d model_type shapes input_type tensor_rt_dtype precision
         compile_backend custom_compile_func custom_trace_func ops.
  subst ops. unfold compile_model.
  destruct (String.eqb_spec model_type "baseline") as [Hbase|Hbase];
    [|destruct (String.eqb_spec model_type "scripted") as [Hscr|Hscr]].
  - destruct (given_string compile_backend) as [backend|] eqn:Hbackend.
    + ops_cases T precision custom_compile_func tensor_rt_dtype.
      all: ops_goal.
    + ops_cases T precision custom_compile_func tensor_rt_dtype.
      all: ops_goal.
  - destruct (given_string compile_backend) as [backend|] eqn:Hbackend.
    + ops_rejected.
    + ops_cases T precision custom_compile_func tensor_rt_dtype.
      all: ops_goal.
  - ops_rejected.
Qed.

(** X11: the TensorRT precision.  [get_tensor_rt_dtype] gives no precision
    for [None] and for the empty text, and accepts a non-empty text exactly
    when it is [FP32] or [FP16].  With an accepted non-empty precision,
    [compile_model] cannot complete on a host without GPU, and when it
    completes the model it returns is the one [torch_tensorrt.compile]
    produced. *)
Theorem tensor_rt_precision_needs_gpu :
  forall (T : torch_env) (model : pyval) (d : device) (model_type : string)
         (shapes : kwdict) (input_type precision compile_backend : option string)
         (custom_compile_func custom_trace_func : option pyval)
         (tensor_rt_precision : string),
    get_tensor_rt_dtype None = Ok None
    /\ get_tensor_rt_dtype (Some "") = Ok None
    /\ (tensor_rt_precision <> "" ->
        (is_ok (get_tensor_rt_dtype (Some tensor_rt_precision)) = true
         <-> tensor_rt_precision = "FP32" \/ tensor_rt_precision = "FP16")
        /\ (forall tensor_rt_dtype,
              get_tensor_rt_dtype (Some tensor_rt_precision)
              = Ok tensor_rt_dtype ->
              let ran :=
                compile_model T model d model_type shapes input_type
                  tensor_rt_dtype precision compile_backend
                  custom_compile_func custom_trace_func in
              (gpu_available T = false -> is_ok (fst ran) = false)
              /\ (is_ok (fst ran) = true ->
                  exists traced kwargs,
                    fst ran
                    = Ok (PCall (PObj "torch_tensorrt.compile") [traced]
                            kwargs)))).
Proof.
  intros T model d model_type shapes input_type precision compile_backend
         custom_compile_func custom_trace_func tensor_rt_precision.
  split; [reflexivity|split; [reflexivity|]].
  intros Hgiven. unfold get_tensor_rt_dtype.
  destruct (String.eqb_spec tensor_rt_precision "") as [?|_];
    [contradiction|].
  destruct (String.eqb_spec tensor_rt_precision "FP32") as [H32|H32];
    [|destruct (String.eqb_spec tensor_rt_precision "FP16") as [H16|H16]].
  3:{ split; [|discriminate]. simpl. split; [discriminate|tauto]. }
  all: (split; [simpl; tauto|]);
    intros tensor_rt_dtype Hdtype; injection Hdtype as <-;
    unfold compile_model;
    (destruct (String.eqb_spec model_type "baseline") as [Hbase|Hbase];
     [|destruct (String.eqb_spec model_type "scripted") as [Hscr|Hscr]]);
    destruct (given_string compile_backend) as [backend|];
    destruct (matches_torch_1 (torch_version T));
    destruct custom_compile_func;
    destruct (gpu_available T);
    destruct (tensorrt_imported T);
    cbn; (split; [try reflexivity; try discriminate|]);
    try discriminate; intros _; eauto.
Qed.

(** The precision FP16 on a host without GPU. *)
Lemma tensor_rt_precision_needs_gpu_witness :
  is_ok
    (fst (compile_model
            {| torch_version := "2.1.0"; gpu_available := false;
               tensorrt_imported := true;
               is_nn_module := fun _ => true |}
            the_model cpu "baseline" [] None (Some torch_half) None None
            None None))
  = false.
Proof.
  destruct (tensor_rt_precision_needs_gpu
              {| torch_version := "2.1.0"; gpu_available := false;
                 tensorrt_imported := true;
                 is_nn_module := fun _ => true |}
              the_model cpu "baseline" [] None None None None None "FP16")
    as (_ & _ & Hgiven).
  destruct Hgiven as [_ Hrun]; [discriminate|].
  apply (Hrun (Some torch_half) eq_refl). reflexivity.
Defined.

(** ** More on the engine *)

(** X12: a run that takes the looped path (an iteration count other than
    1) never returns a model output: whenever it returns, its output is
    [None], for every task type. *)
Theorem looped_run_has_no_output :
  forall (E : env) (model : pyval) (num_iterations : Z) (task_type : string)
         (input_names : list string) (d : device) (test_duration : Z)
         (fuel : nat) (s : state) (r : run),
    num_iterations <> 1 ->
    fst (inference_pytorch E model num_iterations task_type input_names d
           test_duration fuel s) = Ok (Some r) ->
    output r = PNone.
Proof.
  intros E model num_iterations task_type input_names d test_duration fuel s
         r Hn Hrun.
  assert (Hne : (num_iterations =? 1) = false) by lia.
  unfold inference_pytorch in Hrun.
  destruct (set_up_completes E model task_type s) as (L & s1 & HL & _).
  unfold bind at 1 in Hrun. rewrite HL, Hne in Hrun.
  unfold bind at 1 in Hrun.
  match type of Hrun with
  | context [loop_inference ?a ?b ?c ?f ?g ?st] =>
      destruct (loop_inference a b c f g st) as [[[lr|]|e] s2]
  end.
  all: unfold ret in Hrun; simpl fst in Hrun.
  all: try discriminate.
  injection Hrun as <-. reflexivity.
Qed.

(** Two classification iterations in the sample environment. *)
Lemma looped_run_has_no_output_witness :
  exists r,
    fst (inference_pytorch sample_env the_model 2 "classification" ["input"]
           cpu 0 2 initial) = Ok (Some r)
    /\ output r = PNone.
Proof.
  eexists. split.
  - (vm_compute; reflexivity).
  - apply (looped_run_has_no_output sample_env the_model 2 "classification"
           ["input"] cpu 0 2%nat initial).
    + discriminate.
    + (vm_compute; reflexivity).
Defined.

(** X13: the slices a single-shot run draws.  For the task types with
    positional tensors (classification, feedforward, yolo_v7) one slice is
    drawn per input name, so the tensors of one call come from different
    slices, and none at all when there is no input name; every other task
    type of the command line draws exactly one slice.  The clock is read
    exactly twice. *)
Theorem single_shot_slices :
  forall (E : env) (model : pyval) (task_type : string)
         (input_names : list string) (d : device) (test_duration : Z)
         (fuel : nat) (s : state),
    In task_type task_choices ->
    let after :=
      snd (inference_pytorch E model 1 task_type input_names d test_duration
             fuel s) in
    slices_drawn after
    = (slices_drawn s
       + (if in_list task_type ["classification"; "feedforward"; "yolo_v7"]
          then List.length input_names else 1))%nat
    /\ time_reads after = S (S (time_reads s)).
Proof.
  intros E model task_type input_names d test_duration fuel s Htask after.
  subst after. unfold task_choices in Htask. simpl in Htask.
  destruct Htask as [<-|[<-|[<-|[<-|[<-|[<-|[<-|[<-|[<-|[]]]]]]]]]];
    unfold inference_pytorch, set_up, single_shot; cbn;
    try (unfold bind; rewrite input_tensors_run; cbn);
    split; lia.
Qed.

(** A classification run with two input names draws two slices. *)
Lemma single_shot_slices_witness :
  slices_drawn
    (snd (inference_pytorch sample_env the_model 1 "classification"
            ["image"; "mask"] cpu 0 0 initial)) = 2%nat.
Proof.
  apply (single_shot_slices sample_env the_model "classification"
           ["image"; "mask"] cpu 0 0%nat initial).
  simpl. tauto.
Defined.

(** X14: in the looped path, for the six task types called with a keyword
    argument, every iteration draws one fresh slice and makes exactly one
    call, the one written out below for each task type: its inputs are
    computed from the fresh slice, and the callee and the other keyword
    arguments hold only the model, the device, the tokenizer and the
    processor.  So, when these hold no slice themselves, the fresh slice
    is the only one that reaches the call: a slice drawn earlier, such as
    the one drawn during set-up for the generation and speech tasks, does
    not. *)
Theorem iteration_uses_a_fresh_slice :
  forall (E : env) (d : device) (input_names : list string)
         (model tokenizer processor : pyval) (input_size : Z) (s : state),
    let fresh := PSlice (slices_drawn s) in
    let with_tokenizer (kwargs : kwdict) :=
      if truthy tokenizer then kwargs ++ [("tokenizer", tokenizer)]
      else kwargs in
    let after (task_type : string) :=
      snd (inference_iteration E d input_names model task_type tokenizer
             processor input_size s) in
    let calls (task_type : string) :=
      invocations (added s (after task_type)) in
    (forall (task_type : string),
       In task_type ["named-entity-recognition"; "text-generation";
                     "speech-to-text"; "batch-text-generation";
                     "text-to-image"; "text-translation"] ->
       slices_drawn (after task_type) = S (slices_drawn s)
       /\ (slices_of model = [] ->
           slices_of tokenizer = [] ->
           slices_of processor = [] ->
           forall k, In k (slices_called (calls task_type)) ->
                     k = slices_drawn s))
    /\ calls "named-entity-recognition"
       = [Invoke model []
            [("input_ids",
              to_ (PItem (call (bert_ner "tokenize") [tokenizer; fresh])
                         (PStr "input_ids"))
                  (device_val d))]]
    /\ calls "text-generation"
       = [Invoke (PPartial (causal_lm "generate")
                    [("model", model); ("device", device_val d)])
            []
            (with_tokenizer
               [("inputs", call (causal_lm "tokenize") [tokenizer; fresh])])]
    /\ calls "speech-to-text"
       = [Invoke (PPartial (speech "generate")
                    [("model", model); ("device", device_val d);
                     ("processor", processor)])
            []
            (with_tokenizer
               [("inputs",
                 call (speech "process_audio")
                      [processor; PItem fresh (PInt 0);
                       PItem fresh (PInt 1)])])]
    /\ calls "batch-text-generation"
       = [Invoke (PPartial (gpt_2 "batch_text_generation")
                    [("torch_model", model); ("tokenizer", tokenizer);
                     ("device", device_val d)])
            []
            (with_tokenizer
               [("encodings_dict",
                 call (causal_lm "tokenize") [tokenizer; fresh])])]
    /\ calls "text-to-image"
       = [Invoke model [] (with_tokenizer [("prompt", fresh)])]
    /\ calls "text-translation"
       = [Invoke (PAttr model "translate_batch") []
            (with_tokenizer [("txt", fresh)])].
Proof.
  intros E d input_names model tokenizer processor input_size s fresh
         with_tokenizer after calls.
  subst fresh with_tokenizer after calls. cbv beta.
  split.
  - intros task_type Htask. simpl in Htask.
    destruct Htask as [<-|[<-|[<-|[<-|[<-|[<-|[]]]]]]];
      unfold inference_iteration, infer_slice, infer_slice_body, get_exec_time;
      destruct d, (truthy tokenizer); cbn;
      (split; [reflexivity|]);
      intros Hmodel Htokenizer Hprocessor k;
      (erewrite added_app; [|cbn; rewrite <- ?app_assoc; reflexivity]);
      cbn; rewrite ?Hmodel, ?Htokenizer, ?Hprocessor; cbn;
      intuition congruence.
  - repeat split;
      unfold inference_iteration, infer_slice, infer_slice_body, get_exec_time;
      destruct d, (truthy tokenizer); cbn;
      (erewrite added_app; [|cbn; rewrite <- ?app_assoc; reflexivity]);
      reflexivity.
Qed.

(** A text-generation iteration after the set-up has drawn slice 0: the
    iteration draws slice 1, the only slice in its call. *)
Lemma iteration_uses_a_fresh_slice_witness :
  let s := {| time_reads := 0; slices_drawn := 1; trace := [Get_slice] |} in
  let after :=
    snd (inference_iteration sample_env cpu [] the_model "text-generation"
           (PObj "tokenizer") PNone 0 s) in
  slices_drawn after = 2%nat
  /\ forall k, In k (slices_called (invocations (added s after))) -> k = 1%nat.
Proof.
  intros s after.
  destruct (iteration_uses_a_fresh_slice sample_env cpu [] the_model
              (PObj "tokenizer") PNone 0 s) as (Hfresh & _).
  destruct (Hfresh "text-generation") as (Hdrawn & Hcalled).
  - simpl. tauto.
  - split; [exact Hdrawn|].
    apply Hcalled; reflexivity.
Defined.

Lemma get_meaning_tokens_length (t : tensor) (input_size dot_token : Z) :
  List.length (get_meaning_tokens_from_batch t input_size dot_token)
  = shape0 t.
Proof.
  now rewrite get_meaning_tokens_from_batch_map, length_map, length_seq.
Qed.

#[local] Arguments get_meaning_tokens_from_batch : simpl never.

(** X15: the token count an iteration reports, in terms of the value
    its single call returned.  For text generation and speech-to-text it
    is the list [get_meaning_tokens_from_batch] computes from that value
    with the prompt length and the filler token 2, one count per row of
    its grid; for named-entity recognition it is the length of the tokens
    decoded from the input ids of the call and that value; for the other
    task types of the looped path it is [None]. *)
Theorem iteration_token_report :
  forall (E : env) (d : device) (input_names : list string)
         (model tokenizer processor : pyval) (task_type : string)
         (input_size : Z) (s : state),
    In task_type looped_tasks ->
    let ran :=
      inference_iteration E d input_names model task_type tokenizer
        processor input_size s in
    exists it callee args kwargs,
      fst ran = Ok it
      /\ invocations (added s (snd ran)) = [Invoke callee args kwargs]
      /\ let returned := PCall callee args kwargs in
         match iter_tokens it with
         | Tokens_list l =>
             In task_type ["text-generation"; "speech-to-text"]
             /\ l = get_meaning_tokens_from_batch (as_tensor E returned)
                      input_size 2
             /\ List.length l = shape0 (as_tensor E returned)
         | Tokens_int n =>
             task_type = "named-entity-recognition"
             /\ exists ids,
                  kwargs = [("input_ids", ids)]
                  /\ n = as_int E
                           (len (PItem (call (bert_ner "decode")
                                              [tokenizer; ids; returned])
                                       (PInt 0)))
         | Tokens_none =>
             In task_type ["classification"; "feedforward";
                           "batch-text-generation"; "text-to-image";
                           "text-translation"]
         end.
Proof.
  intros E d input_names model tokenizer processor task_type input_size s
         Htask ran.
  subst ran. unfold looped_tasks in Htask. simpl in Htask.
  destruct Htask as [<-|[<-|[<-|[<-|[<-|[<-|[<-|[<-|[]]]]]]]]];
    unfold inference_iteration, infer_slice, infer_slice_body, get_exec_time;
    cbn;
    try (unfold bind; rewrite input_tensors_run; cbn);
    destruct d, (truthy tokenizer); cbn;
    do 4 eexists; (split; [reflexivity|]);
    (split; [erewrite added_app; [|cbn; rewrite <- ?app_assoc; reflexivity];
             cbn; rewrite ?invocations_app, ?invocations_slices;
             reflexivity|]);
    cbn;
    first [ tauto
          | split; [reflexivity|]; eexists; split; reflexivity
          | split; [tauto|]; split;
            [reflexivity|apply get_meaning_tokens_length] ].
Qed.

(** A speech-to-text iteration on the two-row grid of the sample
    environment reports the two counts of that grid. *)
Lemma iteration_token_report_witness :
  exists it callee args kwargs,
    fst (inference_iteration sample_env cpu [] the_model "speech-to-text"
           PNone (PObj "processor") 0 initial) = Ok it
    /\ invocations
         (added initial
            (snd (inference_iteration sample_env cpu [] the_model
                    "speech-to-text" PNone (PObj "processor") 0 initial)))
       = [Invoke callee args kwargs]
    /\ let returned := PCall callee args kwargs in
       match iter_tokens it with
       | Tokens_list l =>
           In "speech-to-text" ["text-generation"; "speech-to-text"]
           /\ l = get_meaning_tokens_from_batch
                    (as_tensor sample_env returned) 0 2
           /\ List.length l = shape0 (as_tensor sample_env returned)
       | Tokens_int n =>
           "speech-to-text" = "named-entity-recognition"
           /\ exists ids,
                kwargs = [("input_ids", ids)]
                /\ n = as_int sample_env
                         (len (PItem (call (bert_ner "decode")
                                            [PNone; ids; returned])
                                     (PInt 0)))
       | Tokens_none =>
           In "speech-to-text" ["classification"; "feedforward";
                                "batch-text-generation"; "text-to-image";
                                "text-translation"]
       end.
Proof.
  apply (iteration_token_report sample_env cpu [] the_model PNone
           (PObj "processor") "speech-to-text" 0 initial).
  simpl. tauto.
Defined.

(** ** More on token counting *)

Lemma non_filler_bound (dot_token : Z) (r : list Z) :
  (non_filler dot_token r <= List.length r)%nat.
Proof. unfold non_filler. apply filter_length_le. Qed.

Lemma row_length (t : tensor) (i : nat) : List.length (row t i) = shape1 t.
Proof. unfold row. now rewrite length_map, length_seq. Qed.

(** X16: every count [get_meaning_tokens_from_batch] returns lies between
    [1 - input_size] (a row of filler tokens only) and
    [1 + shape[1] - input_size] (a row without filler token); a batch
    without rows gives the empty list. *)
Theorem token_counts_bounds :
  forall (generated_output : tensor) (input_size dot_token : Z),
    Forall (fun n => 1 - input_size <= n
                     <= 1 + Z.of_nat (shape1 generated_output) - input_size)
           (get_meaning_tokens_from_batch generated_output input_size
              dot_token)
    /\ (shape0 generated_output = 0%nat ->
        get_meaning_tokens_from_batch generated_output input_size dot_token
        = []).
Proof.
  intros t input_size dot_token.
  rewrite get_meaning_tokens_from_batch_map. split.
  - apply Forall_map, Forall_forall. intros i _.
    pose proof (non_filler_bound dot_token (row t i)) as Hle.
    rewrite row_length in Hle. lia.
  - intros ->. reflexivity.
Qed.

(** A batch without rows. *)
Lemma token_counts_bounds_witness :
  get_meaning_tokens_from_batch (of_rows []) 3 2 = [].
Proof.
  apply (token_counts_bounds (of_rows []) 3 2). reflexivity.
Defined.

Lemma nth_over_indices {A : Type} (l : list A) (d : A) :
  map (fun i => nth i l d) (seq 0 (List.length l)) = l.
Proof.
  induction l as [|x l IH]; simpl; [reflexivity|].
  f_equal. rewrite <- seq_shift, map_map. exact IH.
Qed.

(** The counts of a grid given as a rectangular list of rows. *)
Lemma get_meaning_tokens_of_rows
    (rows : list (list Z)) (input_size dot_token : Z) :
  Forall (fun r => List.length r = List.length (hd [] rows)) rows ->
  get_meaning_tokens_from_batch (of_rows rows) input_size dot_token
  = map (fun r => 1 + Z.of_nat (non_filler dot_token r) - input_size) rows.
Proof.
  intros Hrect. rewrite get_meaning_tokens_from_batch_map.
  change (shape0 (of_rows rows)) with (List.length rows).
  transitivity
    (map (fun r => 1 + Z.of_nat (non_filler dot_token r) - input_size)
         (map (fun i => nth i rows []) (seq 0 (List.length rows))));
    [|now rewrite nth_over_indices].
  rewrite map_map. apply map_ext_in. intros i Hi.
  apply in_seq in Hi.
  rewrite (row_of_rows rows i) by (lia || exact Hrect). reflexivity.
Qed.

Lemma non_filler_permutation (dot_token : Z) (r1 r2 : list Z) :
  Permutation r1 r2 -> non_filler dot_token r1 = non_filler dot_token r2.
Proof.
  intros Hperm. unfold non_filler.
  induction Hperm as [|x l l' _ IH|x y l|l l' l'' _ IH1 _ IH2]; simpl.
  - reflexivity.
  - destruct (negb (x =? dot_token)); simpl; now rewrite IH.
  - destruct (negb (x =? dot_token)), (negb (y =? dot_token)); reflexivity.
  - now rewrite IH1.
Qed.

(** X17: the count of a row does not depend on where its filler tokens
    are: two rectangular grids whose rows are permutations of each other,
    row by row, get the same counts.  A filler token inside a sequence is
    left out of the count just as the padding at its end. *)
Theorem token_counts_ignore_positions :
  forall (rows1 rows2 : list (list Z)) (input_size dot_token : Z),
    Forall (fun r => List.length r = List.length (hd [] rows1)) rows1 ->
    Forall (fun r => List.length r = List.length (hd [] rows2)) rows2 ->
    Forall2 (@Permutation Z) rows1 rows2 ->
    get_meaning_tokens_from_batch (of_rows rows1) input_size dot_token
    = get_meaning_tokens_from_batch (of_rows rows2) input_size dot_token.
Proof.
  intros rows1 rows2 input_size dot_token Hrect1 Hrect2 Hperm.
  rewrite !get_meaning_tokens_of_rows by assumption.
  clear Hrect1 Hrect2.
  induction Hperm as [|r1 r2 rows1 rows2 Hr _ IH]; cbn [map];
    [reflexivity|].
  now rewrite IH, (non_filler_permutation dot_token r1 r2 Hr).
Qed.

(** A filler token between two tokens, and the same row with the filler
    at its end. *)
Lemma token_counts_ignore_positions_witness :
  get_meaning_tokens_from_batch (of_rows [[5; 2; 7]]) 1 2
  = get_meaning_tokens_from_batch (of_rows [[5; 7; 2]]) 1 2.
Proof.
  apply (token_counts_ignore_positions [[5; 2; 7]] [[5; 7; 2]] 1 2).
  - repeat constructor.
  - repeat constructor.
  - constructor; [|constructor].
    apply perm_skip. apply perm_swap.
Defined.

(** ** More on TensorFlowParameters *)

Section Constructor.

Import TensorFlowParameters.

Context {base : FrameworkParameters}.

Lemma validated_value
    (value : option str) (is_correct : option str -> result bool)
    (message : string) (kept : option str) :
  validated value is_correct message = Ok kept -> kept = stored value.
Proof.
  unfold validated, stored.
  destruct (_parameter_is_not_none value); [|now intros [= <-]].
  destruct (is_correct value) as [[|]|e]; try discriminate.
  now intros [= <-].
Qed.

Lemma validated_completes
    (value : option str) (is_correct : option str -> result bool)
    (message : string) :
  is_ok (validated value is_correct message) = true
  <-> _parameter_is_not_none value = false \/ is_correct value = Ok true.
Proof.
  unfold validated.
  destruct (_parameter_is_not_none value); [|simpl; tauto].
  destruct (is_correct value) as [[|]|e]; simpl; split; auto;
    intros [H|H]; discriminate.
Qed.

(** X18: an object the constructor produces holds its arguments verbatim:
    each field is the argument itself where the presence test lets it
    through and [None] elsewhere; nothing is parsed, trimmed or converted
    (the thread count goes to [nthreads], the two parallelism counts to
    [num_inter_threads] and [num_intra_threads]). *)
Theorem constructor_stores_arguments :
  forall (channel_swap mean input_scale input_shape input_name output_names
          thread_count inter_op_parallelism_threads
          intra_op_parallelism_threads kmp_affinity use_xla : option str)
         (self : t),
    __init__ channel_swap mean input_scale input_shape input_name output_names
      thread_count inter_op_parallelism_threads intra_op_parallelism_threads
      kmp_affinity use_xla = Ok self ->
    self
    = {| TensorFlowParameters.channel_swap := stored channel_swap;
         TensorFlowParameters.mean := stored mean;
         TensorFlowParameters.input_scale := stored input_scale;
         TensorFlowParameters.input_shape := stored input_shape;
         TensorFlowParameters.input_name := stored input_name;
         TensorFlowParameters.output_names := stored output_names;
         nthreads := stored thread_count;
         num_inter_threads := stored inter_op_parallelism_threads;
         num_intra_threads := stored intra_op_parallelism_threads;
         TensorFlowParameters.kmp_affinity := stored kmp_affinity;
         TensorFlowParameters.use_xla := stored use_xla |}.
Proof.
  intros channel_swap mean input_scale input_shape input_name output_names
         thread_count inter intra kmp_affinity use_xla self.
  unfold __init__, and_then.
  destruct (validated channel_swap _ _) as [x1|] eqn:H1; [|discriminate].
  destruct (validated mean _ _) as [x2|] eqn:H2; [|discriminate].
  destruct (validated input_scale _ _) as [x3|] eqn:H3; [|discriminate].
  destruct (validated input_shape _ _) as [x4|] eqn:H4; [|discriminate].
  destruct (validated thread_count _ _) as [x5|] eqn:H5; [|discriminate].
  destruct (validated inter _ _) as [x6|] eqn:H6; [|discriminate].
  destruct (validated intra _ _) as [x7|] eqn:H7; [|discriminate].
  apply validated_value in H1, H2, H3, H4, H5, H6, H7. subst.
  now intros [= <-].
Qed.

(** X19: the constructor completes exactly when each of the seven checked
    arguments is either let through by no presence test or passes its
    check: channel swap, mean, input scale, input shape, thread count and
    the two parallelism counts.  The input name, the output names, the
    affinity and the XLA flag are never checked. *)
Theorem constructor_completes_iff :
  forall (channel_swap mean input_scale input_shape input_name output_names
          thread_count inter_op_parallelism_threads
          intra_op_parallelism_threads kmp_affinity use_xla : option str),
    is_ok (__init__ channel_swap mean input_scale input_shape input_name
             output_names thread_count inter_op_parallelism_threads
             intra_op_parallelism_threads kmp_affinity use_xla) = true
    <-> (_parameter_is_not_none channel_swap = false
         \/ _channel_swap_is_correct channel_swap = true)
        /\ (_parameter_is_not_none mean = false
            \/ _mean_is_correct mean = true)
        /\ (_parameter_is_not_none input_scale = false
            \/ _float_value_is_correct input_scale = true)
        /\ (_parameter_is_not_none input_shape = false
            \/ _input_shape_is_correct input_shape = Ok true)
        /\ (_parameter_is_not_none thread_count = false
            \/ _int_value_is_correct thread_count = true)
        /\ (_parameter_is_not_none inter_op_parallelism_threads = false
            \/ _int_value_is_correct inter_op_parallelism_threads = true)
        /\ (_parameter_is_not_none intra_op_parallelism_threads = false
            \/ _int_value_is_correct intra_op_parallelism_threads = true).
Proof.
  intros channel_swap mean input_scale input_shape input_name output_names
         thread_count inter intra kmp_affinity use_xla.
  assert (Hplain : forall (value : option str) (check : option str -> bool)
                          (message : string),
    is_ok (validated value (fun v => Ok (check v)) message) = true
    <-> _parameter_is_not_none value = false \/ check value = true).
  { intros value check message. rewrite validated_completes.
    split; intros [H|H]; auto; right; congruence. }
  rewrite <- (Hplain channel_swap _ channel_swap_message),
          <- (Hplain mean _ mean_message),
          <- (Hplain input_scale _ input_scale_message),
          <- (validated_completes input_shape _ input_shape_message),
          <- (Hplain thread_count _ thread_count_message),
          <- (Hplain inter _ inter_op_message),
          <- (Hplain intra _ intra_op_message).
  unfold __init__, and_then.
  destruct (validated channel_swap _ _); simpl; [|intuition discriminate].
  destruct (validated mean _ _); simpl; [|intuition discriminate].
  destruct (validated input_scale _ _); simpl; [|intuition discriminate].
  destruct (validated input_shape _ _); simpl; [|intuition discriminate].
  destruct (validated thread_count _ _); simpl; [|intuition discriminate].
  destruct (validated inter _ _); simpl; [|intuition discriminate].
  destruct (validated intra _ _); simpl; intuition discriminate.
Qed.

Lemma split_from_blank (word : option str) (ws : str) :
  blank ws = true ->
  split_from word ws = match word with Some w => [w] | None => [] end.
Proof.
  revert word. induction ws as [|c ws IH]; intros word; simpl;
    [reflexivity|].
  intros H. apply andb_true_iff in H. destruct H as [Hc Hws].
  rewrite Hc. destruct word; now rewrite (IH None Hws).
Qed.

Lemma split_from_trailing (word : option str) (s ws : str) :
  blank ws = true ->
  split_from word (s ++ ws) = split_from word s.
Proof.
  intros Hws. revert word. induction s as [|c s IH]; intros word; simpl.
  - now apply split_from_blank.
  - destruct (is_space c); [destruct word|]; now rewrite IH.
Qed.

Lemma split_leading (ws s : str) :
  blank ws = true -> split (ws ++ s) = split s.
Proof.
  unfold split. induction ws as [|c ws IH]; simpl; [reflexivity|].
  intros H. apply andb_true_iff in H. destruct H as [Hc Hws].
  rewrite Hc. now apply IH.
Qed.

(** X20: whitespace around an input shape does not matter to
    [_input_shape_is_correct]: the check gives the same answer for a
    string and for the string with whitespace added in front and behind;
    and a string of whitespace only, the empty string included, is
    rejected. *)
Theorem input_shape_ignores_surrounding_whitespace :
  forall (before after s : str),
    blank before = true ->
    blank after = true ->
    _input_shape_is_correct (Some (before ++ s ++ after))
    = _input_shape_is_correct (Some s)
    /\ _input_shape_is_correct (Some before) = Ok false.
Proof.
  intros before after s Hbefore Hafter. unfold _input_shape_is_correct.
  rewrite (split_leading before _ Hbefore). unfold split.
  rewrite (split_from_trailing None s after Hafter).
  split; [reflexivity|].
  now rewrite (split_from_blank None before Hbefore).
Qed.

End Constructor.

(** An input shape and a thread count under the sample validators. *)
Lemma constructor_stores_arguments_witness :
  {| TensorFlowParameters.channel_swap := None;
     TensorFlowParameters.mean := None;
     TensorFlowParameters.input_scale := None;
     TensorFlowParameters.input_shape := Some (text " 224 224 3");
     TensorFlowParameters.input_name := None;
     TensorFlowParameters.output_names := None;
     TensorFlowParameters.nthreads := Some (text "4");
     TensorFlowParameters.num_inter_threads := None;
     TensorFlowParameters.num_intra_threads := None;
     TensorFlowParameters.kmp_affinity := None;
     TensorFlowParameters.use_xla := None |}
  = {| TensorFlowParameters.channel_swap := TensorFlowParameters.stored None;
       TensorFlowParameters.mean := TensorFlowParameters.stored None;
       TensorFlowParameters.input_scale := TensorFlowParameters.stored None;
       TensorFlowParameters.input_shape :=
         TensorFlowParameters.stored (Some (text " 224 224 3"));
       TensorFlowParameters.input_name := TensorFlowParameters.stored None;
       TensorFlowParameters.output_names := TensorFlowParameters.stored None;
       TensorFlowParameters.nthreads :=
         TensorFlowParameters.stored (Some (text "4"));
       TensorFlowParameters.num_inter_threads :=
         TensorFlowParameters.stored None;
       TensorFlowParameters.num_intra_threads :=
         TensorFlowParameters.stored None;
       TensorFlowParameters.kmp_affinity := TensorFlowParameters.stored None;
       TensorFlowParameters.use_xla := TensorFlowParameters.stored None |}.
Proof.
  apply (constructor_stores_arguments (base := sample_base)
           None None None (Some (text " 224 224 3")) None None (Some (text "4")) None None
           None None).
  reflexivity.
Defined.

(** Two spaces in front of a shape and one behind it. *)
Lemma input_shape_ignores_surrounding_whitespace_witness :
  TensorFlowParameters._input_shape_is_correct (Some (text "  224 224 3 "))
  = TensorFlowParameters._input_shape_is_correct (Some (text "224 224 3"))
  /\ TensorFlowParameters._input_shape_is_correct (Some (text "  "))
     = Ok false.
Proof.
  apply (input_shape_ignores_surrounding_whitespace (base := sample_base)
           (text "  ") (text " ") (text "224 224 3"));
    reflexivity.
Defined.

(** ** Loading a model from a configuration *)

(** X21: [load_model_from_config] returns nothing ([None] instead of its
    triple) exactly when the configured model is not pretrained and has no
    weights.  For a pretrained model the weights are ignored and the
    created model is returned as it is; otherwise the created model is
    called with the weights.  The custom compile and trace functions are
    handed out exactly when their flags are set. *)
Theorem load_model_from_config_result :
  forall (model_cls : model_class)
         (d num_gpu_devices precision should_be_traced custom_models_links
          : pyval),
    let loaded :=
      load_model_from_config model_cls d num_gpu_devices precision
        should_be_traced custom_models_links in
    let created :=
      PCall (PAttr (class_object model_cls) "create_model") []
        [("device", d); ("num_gpu_devices", num_gpu_devices);
         ("precision", precision); ("should_be_traced", should_be_traced);
         ("custom_models_links", custom_models_links);
         ("log", PObj "log")] in
    (loaded = None
     <-> class_pretrained model_cls = false
         /\ truthy (class_weights model_cls) = false)
    /\ (forall model custom_compile_func custom_trace_func,
          loaded = Some (model, custom_compile_func, custom_trace_func) ->
          (class_pretrained model_cls = true -> model = created)
          /\ (class_pretrained model_cls = false ->
              model
              = PCall created [] [("weights", class_weights model_cls)])
          /\ (custom_compile_func <> None
              <-> use_custom_compile_step model_cls = true)
          /\ (custom_trace_func <> None
              <-> use_custom_trace_step model_cls = true)).
Proof.
  intros [object weights pretrained compile_step trace_step]
         d num_gpu_devices precision should_be_traced custom_models_links
         loaded created.
  subst loaded created. unfold load_model_from_config.
  cbn [class_object class_weights class_pretrained use_custom_compile_step
       use_custom_trace_step].
  destruct pretrained, (truthy weights) eqn:Hw; cbn [andb negb truthy];
    rewrite ?Hw;
    (split; [split; [try discriminate; tauto
                    |intros [? ?]; try discriminate; try reflexivity]|]);
    intros model ccf ctf Hloaded; try discriminate;
    injection Hloaded as <- <- <-;
    destruct compile_step, trace_step;
    repeat split; try discriminate; try reflexivity; try congruence;
    try (intros H; exfalso; apply H; reflexivity).
Qed.

(** A pretrained model with weights: a triple is returned. *)
Lemma load_model_from_config_result_witness :
  load_model_from_config
    {| class_object := PObj "model_cls"; class_weights := PStr "w.pth";
       class_pretrained := true; use_custom_compile_step := false;
       use_custom_trace_step := false |}
    PNone PNone PNone PNone PNone
  <> None.
Proof.
  intros Hnone.
  apply (load_model_from_config_result
           {| class_object := PObj "model_cls"; class_weights := PStr "w.pth";
              class_pretrained := true; use_custom_compile_step := false;
              use_custom_trace_step := false |}
           PNone PNone PNone PNone PNone) in Hnone.
  destruct Hnone as [Hpre _]. discriminate Hpre.
Defined.

(** ** The two paths side by side *)

(** X22: the single-shot path and an iteration of the looped path build
    the model call from the next slices in the same way for classification
    and feedforward: started with the same number of slices drawn, both
    make the same positional call.  For named-entity recognition they
    differ: with the same tokenizer, the same tokenized ids are passed as
    the one positional argument in the single-shot path and under the
    keyword [input_ids] in the looped path. *)
Theorem paths_build_the_same_inputs :
  forall (E : env) (model : pyval) (input_names : list string) (d : device)
         (L : locals) (processor : pyval) (input_size : Z)
         (s1 s2 : state),
    slices_drawn s1 = slices_drawn s2 ->
    (forall task_type,
       task_type = "classification" \/ task_type = "feedforward" ->
       invocations
         (added s1 (snd (single_shot E model task_type input_names d L s1)))
       = invocations
           (added s2
              (snd (inference_iteration E d input_names model task_type
                      (tokenizer L) processor input_size s2))))
    /\ (exists ids,
          invocations
            (added s1
               (snd (single_shot E model "named-entity-recognition"
                       input_names d L s1)))
          = [Invoke model [ids] []]
          /\ invocations
               (added s2
                  (snd (inference_iteration E d input_names model
                          "named-entity-recognition" (tokenizer L) processor
                          input_size s2)))
             = [Invoke model [] [("input_ids", ids)]]).
Proof.
  intros E model input_names d L processor input_size s1 s2 Hslices.
  split.
  - intros task_type [-> | ->];
      unfold single_shot, inference_iteration, infer_slice, infer_slice_body,
        get_exec_time;
      cbn; unfold bind; rewrite !input_tensors_run; cbn;
      destruct d; cbn;
      (erewrite (added_app s1); [|cbn; rewrite <- ?app_assoc; reflexivity]);
      (erewrite (added_app s2); [|cbn; rewrite <- ?app_assoc; reflexivity]);
      rewrite !invocations_app, !invocations_slices, Hslices; reflexivity.
  - unfold single_shot, inference_iteration, infer_slice, infer_slice_body,
      get_exec_time.
    eexists. destruct d, (truthy (tokenizer L)); cbn;
      (split;
       [erewrite (added_app s1); [|cbn; rewrite <- ?app_assoc; reflexivity];
        reflexivity
       |erewrite (added_app s2); [|cbn; rewrite <- ?app_assoc; reflexivity];
        rewrite <- Hslices; reflexivity]).
Qed.

(** Both paths from the initial state, one input name. *)
Lemma paths_build_the_same_inputs_witness :
  invocations
    (added initial
       (snd (single_shot sample_env the_model "classification" ["input"] cpu
               {| tokenizer := PNone; processor := PNone; input_size := 0;
                  encodings_dict := None; num_tokens0 := [];
                  audios_lengths0 := []; audio_sampling_rate0 := PNone |}
               initial)))
  = invocations
      (added initial
         (snd (inference_iteration sample_env cpu ["input"] the_model
                 "classification" PNone PNone 0 initial))).
Proof.
  destruct (paths_build_the_same_inputs sample_env the_model ["input"] cpu
              {| tokenizer := PNone; processor := PNone; input_size := 0;
                 encodings_dict := None; num_tokens0 := [];
                 audios_lengths0 := []; audio_sampling_rate0 := PNone |}
              PNone 0 initial initial eq_refl) as [Hsame _].
  apply Hsame. now left.
Defined.
